(** * go-pkg-database, package [sql]: transaction helpers, JSONB accessors
      and connection defaults

    A shallow embedding of [sql/transaction.go], [sql/jsonb.go] and
    [sql/gorm.go].  Go values that can be [nil] are options, the [error]
    interface is an inductive type with the two concrete error types
    [fmt.Errorf] produces, a panic is an outcome next to the normal return,
    and every call to the relational store is recorded in a trace. *)

From Stdlib Require Import ZArith String List Lia.
From stdpp Require Import base strings gmap pretty.

Local Open Scope string_scope.
Local Open Scope list_scope.

(** ** Go runtime primitives used but not defined by the package *)

Class GoRuntime := {
  (** the IEEE-754 double type *)
  float64 : Type;
  (** how [fmt] prints a [float64] under [%v] *)
  float64_format : float64 -> string;
}.

(** ** Errors

    [fmt.Errorf] returns an [*errors.errorString] when the format has no
    [%w], and a [*fmt.wrapError] (message and wrapped cause) when it has
    one.  Errors coming out of the store are values of the same type. *)

Inductive error : Type :=
| errorString (s : string)
| wrapError (msg : string) (err : error).

Definition Error (e : error) : string :=
  match e with
  | errorString s => s
  | wrapError msg _ => msg
  end.

Definition Unwrap (e : error) : option error :=
  match e with
  | errorString _ => None
  | wrapError _ err => Some err
  end.

(** [s] occurs inside [t], as [strings.Contains(t, s)] *)
Definition Contains (t s : string) : Prop :=
  exists pre post, t = pre +:+ s +:+ post.

Section Values.
Context `{GoRuntime}.

(** ** Dynamic values ([any])

    The dynamic types the package inspects are spelled out; a value of any
    other dynamic type is [other_any], carrying its type name and its
    rendering under [%v] and under [%d]. *)

Inductive any : Type :=
| nil_any
| bool_any (b : bool)
| int_any (n : Z)
| float64_any (f : float64)
| Number_any (s : string)
| string_any (s : string)
| other_any (T v d : string).

Definition format_bool (b : bool) : string := if b then "true" else "false".

(** [%d] applied to one operand: an [int] prints in decimal, for the other
    spelled-out types [%d] is a bad verb and [fmt] prints
    [%!d(type=value)], or [%!d(<nil>)] for the nil interface. *)
Definition format_d (a : any) : string :=
  match a with
  | nil_any => "%!d(<nil>)"
  | bool_any b => "%!d(bool=" +:+ format_bool b +:+ ")"
  | int_any n => pretty n
  | float64_any f => "%!d(float64=" +:+ float64_format f +:+ ")"
  | Number_any s => "%!d(json.Number=" +:+ s +:+ ")"
  | string_any s => "%!d(string=" +:+ s +:+ ")"
  | other_any _ _ d => d
  end.

(** A format string with its operands put in place: literal text, [%w] and
    [%v] of an error, [%d] of a dynamic value. *)
Inductive piece : Type :=
| Lit (s : string)
| verb_w (e : error)
| verb_v (e : error)
| verb_d (a : any).

Definition format_piece (p : piece) : string :=
  match p with
  | Lit s => s
  | verb_w e => Error e
  | verb_v e => Error e
  | verb_d a => format_d a
  end.

Fixpoint Sprintf (f : list piece) : string :=
  match f with
  | [] => ""
  | p :: f' => format_piece p +:+ Sprintf f'
  end.

(** the operand of the first [%w], if any *)
Fixpoint wrapped (f : list piece) : option error :=
  match f with
  | [] => None
  | verb_w e :: _ => Some e
  | _ :: f' => wrapped f'
  end.

(** The package never uses more than one [%w] in a format. *)
Definition Errorf (f : list piece) : error :=
  match wrapped f with
  | Some e => wrapError (Sprintf f) e
  | None => errorString (Sprintf f)
  end.

End Values.

(** ** Connection defaults ([sql/gorm.go]) *)

Module time.
Definition Duration := Z.
Definition Nanosecond : Duration := 1%Z.
Definition Millisecond : Duration := (1000 * 1000 * Nanosecond)%Z.
Definition Second : Duration := (1000 * Millisecond)%Z.
Definition Minute : Duration := (60 * Second)%Z.
End time.

Module logger.
(** gorm's log levels: [Silent = iota + 1], [Error], [Warn], [Info] *)
Definition LogLevel := Z.
Definition Silent : LogLevel := 1%Z.
Definition Error : LogLevel := 2%Z.
Definition Warn : LogLevel := 3%Z.
Definition Info : LogLevel := 4%Z.
End logger.

Record GormConfig : Type := mkGormConfig {
  Host : string;
  User : string;
  Password : string;
  Name : string;
  Port : string;
  SSLMode : string;
  Timezone : string;
  MaxIdleConns : Z;
  MaxOpenConns : Z;
  ConnMaxLifetime : time.Duration;
  ConnMaxIdleTime : time.Duration;
  TranslateErrors : bool;
  LogLevel : logger.LogLevel;
  SlowThreshold : time.Duration;
  IgnoreRecordNotFoundError : bool;
}.

(** Assignment to one field of the by-value receiver, [c.F = v]. *)
Definition set_SSLMode (c : GormConfig) (v : string) : GormConfig :=
  mkGormConfig (Host c) (User c) (Password c) (Name c) (Port c) v (Timezone c)
    (MaxIdleConns c) (MaxOpenConns c) (ConnMaxLifetime c) (ConnMaxIdleTime c)
    (TranslateErrors c) (LogLevel c) (SlowThreshold c) (IgnoreRecordNotFoundError c).
Definition set_Timezone (c : GormConfig) (v : string) : GormConfig :=
  mkGormConfig (Host c) (User c) (Password c) (Name c) (Port c) (SSLMode c) v
    (MaxIdleConns c) (MaxOpenConns c) (ConnMaxLifetime c) (ConnMaxIdleTime c)
    (TranslateErrors c) (LogLevel c) (SlowThreshold c) (IgnoreRecordNotFoundError c).
Definition set_MaxIdleConns (c : GormConfig) (v : Z) : GormConfig :=
  mkGormConfig (Host c) (User c) (Password c) (Name c) (Port c) (SSLMode c) (Timezone c)
    v (MaxOpenConns c) (ConnMaxLifetime c) (ConnMaxIdleTime c)
    (TranslateErrors c) (LogLevel c) (SlowThreshold c) (IgnoreRecordNotFoundError c).
Definition set_MaxOpenConns (c : GormConfig) (v : Z) : GormConfig :=
  mkGormConfig (Host c) (User c) (Password c) (Name c) (Port c) (SSLMode c) (Timezone c)
    (MaxIdleConns c) v (ConnMaxLifetime c) (ConnMaxIdleTime c)
    (TranslateErrors c) (LogLevel c) (SlowThreshold c) (IgnoreRecordNotFoundError c).
Definition set_ConnMaxLifetime (c : GormConfig) (v : time.Duration) : GormConfig :=
  mkGormConfig (Host c) (User c) (Password c) (Name c) (Port c) (SSLMode c) (Timezone c)
    (MaxIdleConns c) (MaxOpenConns c) v (ConnMaxIdleTime c)
    (TranslateErrors c) (LogLevel c) (SlowThreshold c) (IgnoreRecordNotFoundError c).
Definition set_ConnMaxIdleTime (c : GormConfig) (v : time.Duration) : GormConfig :=
  mkGormConfig (Host c) (User c) (Password c) (Name c) (Port c) (SSLMode c) (Timezone c)
    (MaxIdleConns c) (MaxOpenConns c) (ConnMaxLifetime c) v
    (TranslateErrors c) (LogLevel c) (SlowThreshold c) (IgnoreRecordNotFoundError c).
Definition set_LogLevel (c : GormConfig) (v : logger.LogLevel) : GormConfig :=
  mkGormConfig (Host c) (User c) (Password c) (Name c) (Port c) (SSLMode c) (Timezone c)
    (MaxIdleConns c) (MaxOpenConns c) (ConnMaxLifetime c) (ConnMaxIdleTime c)
    (TranslateErrors c) v (SlowThreshold c) (IgnoreRecordNotFoundError c).
Definition set_SlowThreshold (c : GormConfig) (v : time.Duration) : GormConfig :=
  mkGormConfig (Host c) (User c) (Password c) (Name c) (Port c) (SSLMode c) (Timezone c)
    (MaxIdleConns c) (MaxOpenConns c) (ConnMaxLifetime c) (ConnMaxIdleTime c)
    (TranslateErrors c) (LogLevel c) v (IgnoreRecordNotFoundError c).

(** [func (c GormConfig) setDefaults() GormConfig] *)
Definition setDefaults (c : GormConfig) : GormConfig :=
  let c := if String.eqb (SSLMode c) "" then set_SSLMode c "disable" else c in
  let c := if String.eqb (Timezone c) "" then set_Timezone c "UTC" else c in
  let c := if (MaxIdleConns c <=? 0)%Z then set_MaxIdleConns c 10%Z else c in
  let c := if (MaxOpenConns c <=? 0)%Z then set_MaxOpenConns c 100%Z else c in
  let c := if (ConnMaxLifetime c <=? 0)%Z
           then set_ConnMaxLifetime c (30 * time.Minute)%Z else c in
  let c := if (ConnMaxIdleTime c <=? 0)%Z
           then set_ConnMaxIdleTime c (10 * time.Minute)%Z else c in
  let c := if (LogLevel c =? 0)%Z then set_LogLevel c logger.Info else c in
  let c := if (SlowThreshold c <=? 0)%Z
           then set_SlowThreshold c (200 * time.Millisecond)%Z else c in
  c.

(** one statement of [setDefaults], [if unset(c) { c.F = v }], on its own *)
Definition step (unset : GormConfig -> bool) (assign : GormConfig -> GormConfig)
    (c : GormConfig) : GormConfig :=
  if unset c then assign c else c.

(** [func (c GormConfig) validate() error] *)
Definition validate (c : GormConfig) : option error :=
  if String.eqb (Host c) "" then Some (errorString "host is required")
  else if String.eqb (User c) "" then Some (errorString "user is required")
  else if String.eqb (Name c) "" then Some (errorString "database name is required")
  else if String.eqb (Port c) "" then Some (errorString "port is required")
  else None.

(** ** Outcomes: normal return or panic

    [Panic r] is a panic in flight with value [r], as [recover] would see
    it.  (Since Go 1.21, which this package's Go 1.22 requirement implies,
    [panic(nil)] raises a [*runtime.PanicNilError], so [recover() != nil]
    holds exactly when a panic is in flight.) *)

Inductive outcome `{GoRuntime} (A : Type) : Type :=
| Return (a : A)
| Panic (r : any).
Arguments Return {_ _} a.
Arguments Panic {_ _} r.

(** ** The JSONB column type ([sql/jsonb.go])

    [type JSONB map[string]any]: [None] is the nil map.  A method with a
    map receiver that writes to the map is modelled as returning the
    receiver's contents after the call. *)

Abbreviation JSONB := (option (gmap string any)).

Section GoMaps.
Context `{GoRuntime}.

(** the run-time panic of [m[k] = v] on a nil map *)
Definition nil_map_assignment : any :=
  other_any "runtime.plainError" "assignment to entry in nil map"
            "%!d(runtime.plainError=assignment to entry in nil map)".

(** [v, ok := m[k]]: never faults, also on a nil map *)
Definition map_index (m : JSONB) (k : string) : any * bool :=
  match m with
  | None => (nil_any, false)
  | Some g => match g !! k with
              | Some v => (v, true)
              | None => (nil_any, false)
              end
  end.

(** [m[k] = v]: faults on a nil map *)
Definition map_assign (m : JSONB) (k : string) (v : any) : outcome JSONB :=
  match m with
  | None => Panic nil_map_assignment
  | Some g => Return (Some (<[k := v]> g))
  end.

(** [delete(m, k)]: a no-op on a nil map *)
Definition map_delete (m : JSONB) (k : string) : JSONB :=
  match m with
  | None => None
  | Some g => Some (delete k g)
  end.

(** [len(m)] *)
Definition map_len (m : JSONB) : Z :=
  match m with
  | None => 0%Z
  | Some g => Z.of_nat (size g)
  end.

End GoMaps.

Section JSONBMethods.
Context `{GoRuntime}.
(** [json.Marshal] of the map: the bytes as a string, or a non-nil error *)
Variable json_Marshal : gmap string any -> string + error.
(** the conversion [int(v)] of a [float64] *)
Variable float64_to_int : float64 -> Z.
(** [json.Number.Int64]: [None] is a non-nil error *)
Variable Number_Int64 : string -> option Z.

(** [func (j JSONB) String() string] *)
Definition String_ (j : JSONB) : string :=
  match j with
  | None => "null"
  | Some g => match json_Marshal g with
              | inr _ => "{}"
              | inl data => data
              end
  end.

(** [func (j JSONB) Set(key string, value any)] *)
Definition Set_ (j : JSONB) (key : string) (value : any) : outcome JSONB :=
  match j with
  | None => Return j
  | Some _ => map_assign j key value
  end.

(** [func (j JSONB) Get(key string) (any, bool)] *)
Definition Get (j : JSONB) (key : string) : any * bool :=
  match j with
  | None => (nil_any, false)
  | Some _ => map_index j key
  end.

(** [func (j JSONB) GetString(key string) (string, bool)] *)
Definition GetString (j : JSONB) (key : string) : string * bool :=
  let '(value, exists_) := Get j key in
  if negb exists_ then ("", false)
  else match value with
       | string_any str => (str, true)
       | _ => ("", false)
       end.

(** [func (j JSONB) GetInt(key string) (int, bool)] *)
Definition GetInt (j : JSONB) (key : string) : Z * bool :=
  let '(value, exists_) := Get j key in
  if negb exists_ then (0%Z, false)
  else match value with
       | int_any v => (v, true)
       | float64_any v => (float64_to_int v, true)
       | Number_any v => match Number_Int64 v with
                         | Some i => (i, true)
                         | None => (0%Z, false)
                         end
       | _ => (0%Z, false)
       end.

(** [func (j JSONB) GetBool(key string) (bool, bool)] *)
Definition GetBool (j : JSONB) (key : string) : bool * bool :=
  let '(value, exists_) := Get j key in
  if negb exists_ then (false, false)
  else match value with
       | bool_any boolean => (boolean, true)
       | _ => (false, false)
       end.

(** [func (j JSONB) Delete(key string)] *)
Definition Delete (j : JSONB) (key : string) : JSONB :=
  match j with
  | None => j
  | Some _ => map_delete j key
  end.

(** [func (j JSONB) Has(key string) bool] *)
Definition Has (j : JSONB) (key : string) : bool :=
  match j with
  | None => false
  | Some _ => snd (map_index j key)
  end.

(** [func (j JSONB) Keys() []string]: [None] is the nil slice.  Go leaves
    the order of a [range] over a map unspecified; the model takes the
    order of [map_to_list]. *)
Definition Keys (j : JSONB) : option (list string) :=
  match j with
  | None => None
  | Some g => Some (foldl (fun keys kv => (keys ++ [fst kv])%list) [] (map_to_list g))
  end.

(** [func (j JSONB) IsEmpty() bool] *)
Definition IsEmpty (j : JSONB) : bool := (map_len j =? 0)%Z.

(** [func (j JSONB) Clone() JSONB] *)
Definition Clone (j : JSONB) : JSONB :=
  match j with
  | None => None
  | Some g => Some (foldl (fun clone kv => <[fst kv := snd kv]> clone) ∅ (map_to_list g))
  end.

End JSONBMethods.

(** ** The store, its handles and the trace of store calls
       ([sql/transaction.go])

    A [*gorm.DB] is a handle with the fields the package reads: [Error],
    and [Statement] with its back pointer [Statement.DB].  Pointers are
    addresses; [None] is [nil]. *)

Record Statement : Type := mkStatement {
  Statement_DB : option nat;
}.

Record DB : Type := mkDB {
  DB_addr : nat;
  DB_Error : option error;
  DB_Statement : option Statement;
}.

Section Transactions.
Context `{GoRuntime}.

(** [context.Context] as a chain of [context.WithValue] over
    [context.Background()].  Only string keys are kept: the package looks
    up the string key ["savepoint_id"], which a key of another type never
    equals. *)
Inductive Context_ : Type :=
| Background
| WithValue (parent : Context_) (key : string) (val : any).

(** [ctx.Value(key)] *)
Fixpoint Value (ctx : Context_) (key : string) : any :=
  match ctx with
  | Background => nil_any
  | WithValue parent k val => if String.eqb k key then val else Value parent key
  end.

(** One call to the store.  [CExec] stands for the statements a unit of
    work runs on its handle. *)
Inductive Call : Type :=
| CBegin (ctx : Context_) (db : DB)
| CCommit (tx : DB)
| CRollback (tx : DB)
| CSavePoint (db : DB) (name : string)
| CRollbackTo (db : DB) (name : string)
| CExec (db : DB) (stmt : string).

Definition Trace : Type := list Call.

(** The store answers every call with a handle whose [Error] the caller
    reads; the answer may depend on all calls made before.  A store call
    returns normally: gorm reports its failures through [Error]. *)
Record Store : Type := mkStore {
  Begin_result : Trace -> Context_ -> DB -> DB;
  Commit_result : Trace -> DB -> DB;
  Rollback_result : Trace -> DB -> DB;
  SavePoint_result : Trace -> DB -> string -> DB;
  RollbackTo_result : Trace -> DB -> string -> DB;
  Exec_result : Trace -> DB -> string -> DB;
}.

(** A computation reads the calls made so far and yields its outcome
    together with the calls it made itself, in order. *)
Definition Op (A : Type) : Type := Trace -> outcome A * Trace.

Definition ret {A} (a : A) : Op A := fun _ => (Return a, []).

Definition panic {A} (r : any) : Op A := fun _ => (Panic r, []).

Definition bind {A B} (m : Op A) (k : A -> Op B) : Op B :=
  fun h =>
    match m h with
    | (Return a, w) => let '(o, w') := k a (h ++ w)%list in (o, (w ++ w')%list)
    | (Panic r, w) => (Panic r, w)
    end.

(** [defer func() { if r := recover(); r != nil { handler(r) } }()] around
    [body], in a function with one unnamed result: a normal return of
    [body] stands; a panic of [body] is recovered and [handler] runs; if
    [handler] returns, the function returns the zero value [zero]. *)
Definition defer_recover {A} (zero : A) (handler : any -> Op unit) (body : Op A) : Op A :=
  fun h =>
    match body h with
    | (Return a, w) => (Return a, w)
    | (Panic r, w) =>
        match handler r (h ++ w)%list with
        | (Return _, w') => (Return zero, (w ++ w')%list)
        | (Panic r', w') => (Panic r', (w ++ w')%list)
        end
    end.

End Transactions.

Notation "'let*' x ':=' m 'in' k" := (bind m (fun x => k))
  (at level 10, x name, m at level 100, k at level 200).

Section Executor.
Context `{GoRuntime}.
Variable store : Store.

Definition call (c : Call) (result : Trace -> DB) : Op DB :=
  fun h => (Return (result h), [c]).

(** [db.WithContext(ctx).Begin()] *)
Definition Begin (ctx : Context_) (db : DB) : Op DB :=
  call (CBegin ctx db) (fun h => Begin_result store h ctx db).
(** [tx.Commit()] *)
Definition Commit (tx : DB) : Op DB :=
  call (CCommit tx) (fun h => Commit_result store h tx).
(** [tx.Rollback()] *)
Definition Rollback (tx : DB) : Op DB :=
  call (CRollback tx) (fun h => Rollback_result store h tx).
(** [db.SavePoint(name)] *)
Definition SavePoint (db : DB) (name : string) : Op DB :=
  call (CSavePoint db name) (fun h => SavePoint_result store h db name).
(** [db.RollbackTo(name)] *)
Definition RollbackTo (db : DB) (name : string) : Op DB :=
  call (CRollbackTo db name) (fun h => RollbackTo_result store h db name).
(** a statement of a unit of work, [tx.Create(..)] and the like *)
Definition Exec (db : DB) (stmt : string) : Op DB :=
  call (CExec db stmt) (fun h => Exec_result store h db stmt).

(** [type TransactionFunc func(tx *gorm.DB) error] *)
Definition TransactionFunc : Type := DB -> Op (option error).

(** [func WithTransactionContext(ctx, db, fn) error] *)
Definition WithTransactionContext (ctx : Context_) (db : option DB) (fn : TransactionFunc)
  : Op (option error) :=
  match db with
  | None => ret (Some (Errorf [Lit "database connection is nil"]))
  | Some db =>
      let* tx := Begin ctx db in
      match DB_Error tx with
      | Some e => ret (Some (Errorf [Lit "failed to begin transaction: "; verb_w e]))
      | None =>
          defer_recover None
            (fun r => let* _ := Rollback tx in panic r)
            (let* err := fn tx in
             match err with
             | Some err =>
                 let* rb := Rollback tx in
                 match DB_Error rb with
                 | Some rollbackErr =>
                     ret (Some (Errorf [Lit "transaction failed: "; verb_w err;
                                        Lit ", rollback failed: "; verb_v rollbackErr]))
                 | None => ret (Some (Errorf [Lit "transaction failed: "; verb_w err]))
                 end
             | None =>
                 let* c := Commit tx in
                 match DB_Error c with
                 | Some err => ret (Some (Errorf [Lit "failed to commit transaction: "; verb_w err]))
                 | None => ret None
                 end
             end)
      end
  end.

(** [func WithTransaction(db, fn) error] *)
Definition WithTransaction (db : option DB) (fn : TransactionFunc) : Op (option error) :=
  WithTransactionContext Background db fn.

(** [db.Statement != nil && db.Statement.DB != nil], the package's test for
    "already in a transaction" *)
Definition in_transaction (db : DB) : bool :=
  match DB_Statement db with
  | Some st => match Statement_DB st with
               | Some _ => true
               | None => false
               end
  | None => false
  end.

(** [fmt.Sprintf("sp_%d", ctx.Value("savepoint_id"))] *)
Definition savepoint_name (ctx : Context_) : string :=
  Sprintf [Lit "sp_"; verb_d (Value ctx "savepoint_id")].

(** [func WithNestedTransactionContext(ctx, db, fn) error] *)
Definition WithNestedTransactionContext (ctx : Context_) (db : option DB) (fn : TransactionFunc)
  : Op (option error) :=
  match db with
  | None => ret (Some (Errorf [Lit "database connection is nil"]))
  | Some db =>
      if in_transaction db then
        let savepoint := savepoint_name ctx in
        let* sp := SavePoint db savepoint in
        match DB_Error sp with
        | Some err => ret (Some (Errorf [Lit "failed to create savepoint: "; verb_w err]))
        | None =>
            defer_recover None
              (fun r => let* _ := RollbackTo db savepoint in panic r)
              (let* err := fn db in
               match err with
               | Some err =>
                   let* rb := RollbackTo db savepoint in
                   match DB_Error rb with
                   | Some rollbackErr =>
                       ret (Some (Errorf [Lit "nested transaction failed: "; verb_w err;
                                          Lit ", savepoint rollback failed: ";
                                          verb_v rollbackErr]))
                   | None => ret (Some (Errorf [Lit "nested transaction failed: "; verb_w err]))
                   end
               | None => ret None
               end)
        end
      else WithTransactionContext ctx (Some db) fn
  end.

(** [func WithNestedTransaction(db, fn) error] *)
Definition WithNestedTransaction (db : option DB) (fn : TransactionFunc) : Op (option error) :=
  WithNestedTransactionContext Background db fn.

End Executor.

(** ** Reading a trace *)

Section TraceObservations.
Context `{GoRuntime}.

Definition is_begin (c : Call) : bool := match c with CBegin _ _ => true | _ => false end.
Definition is_commit (c : Call) : bool := match c with CCommit _ => true | _ => false end.
Definition is_rollback (c : Call) : bool := match c with CRollback _ => true | _ => false end.
Definition is_savepoint (c : Call) : bool := match c with CSavePoint _ _ => true | _ => false end.
Definition is_rollback_to (c : Call) : bool :=
  match c with CRollbackTo _ _ => true | _ => false end.

(** how many calls of a kind a trace holds *)
Definition count (kind : Call -> bool) (t : Trace) : nat := length (List.filter kind t).

(** The savepoints active at the end of a trace, innermost first: a
    savepoint is active from its creation to the end of its transaction; a
    rollback to a savepoint ends the savepoints created after it, and a
    rollback to an unknown name changes nothing. *)
Fixpoint drop_above (name : string) (active : list string) : list string :=
  match active with
  | [] => []
  | n :: rest => if String.eqb n name then active else drop_above name rest
  end.

Definition step_savepoints (active : list string) (c : Call) : list string :=
  match c with
  | CBegin _ _ | CCommit _ | CRollback _ => []
  | CSavePoint _ name => name :: active
  | CRollbackTo _ name =>
      if existsb (String.eqb name) active then drop_above name active else active
  | CExec _ _ => active
  end.

Definition active_savepoints (t : Trace) : list string := foldl step_savepoints [] t.

End TraceObservations.

(** ** Concrete stores and units of work *)

(** A runtime fragment without [float64] values. *)
Definition scenario_runtime : GoRuntime :=
  {| float64 := Empty_set; float64_format := fun f => match f with end |}.

Section Scenarios.
Existing Instance scenario_runtime.

(** the connection handle, and the handle of the transaction opened on it *)
Definition conn : DB := mkDB 1 None None.
Definition tx1 : DB := mkDB 2 None (Some (mkStatement (Some 2))).

Definition failed (db : DB) (msg : string) : DB :=
  mkDB (DB_addr db) (Some (errorString msg)) (DB_Statement db).

(** A store on which [Begin] opens [tx1]; the flags make commit, both kinds
    of rollback, and the insertion into [profiles] fail. *)
Definition scenario_store (fail_commit fail_rollback fail_profiles : bool) : Store :=
  {| Begin_result := fun _ _ _ => tx1;
     Commit_result := fun _ tx => if fail_commit then failed tx "commit refused" else tx;
     Rollback_result := fun _ tx => if fail_rollback then failed tx "connection lost" else tx;
     SavePoint_result := fun _ db _ => db;
     RollbackTo_result := fun _ db _ =>
       if fail_rollback then failed db "connection lost" else db;
     Exec_result := fun _ db stmt =>
       if fail_profiles && String.eqb stmt "INSERT INTO profiles"
       then failed db "second insert failed" else db |}.

(** the unit of work of the README: create a user, then its profile *)
Definition create_user_and_profile (store : Store) : TransactionFunc :=
  fun tx =>
    let* r := Exec store tx "INSERT INTO users" in
    match DB_Error r with
    | Some err => ret (Some err)
    | None =>
        let* r := Exec store tx "INSERT INTO profiles" in
        match DB_Error r with
        | Some err => ret (Some err)
        | None => ret None
        end
    end.

(** a unit of work that panics after its first statement *)
Definition create_user_then_panic (store : Store) : TransactionFunc :=
  fun tx =>
    let* _ := Exec store tx "INSERT INTO users" in
    panic (string_any "boom").

(** two nested scopes inside one transaction, through the plain entry
    points *)
Definition nested_twice (store : Store) : TransactionFunc :=
  fun tx =>
    WithNestedTransaction store (Some tx) (fun tx' =>
      WithNestedTransaction store (Some tx') (fun tx'' =>
        let* _ := Exec store tx'' "INSERT INTO users" in ret None)).

(** the same with a context carrying a savepoint id, handed down the chain *)
Definition nested_twice_ctx (store : Store) (ctx : Context_) : TransactionFunc :=
  fun tx =>
    WithNestedTransactionContext store ctx (Some tx) (fun tx' =>
      WithNestedTransactionContext store ctx (Some tx') (fun tx'' =>
        let* _ := Exec store tx'' "INSERT INTO users" in ret None)).

End Scenarios.

(** a configuration that sets some of the optional fields *)
Definition production_config : GormConfig :=
  mkGormConfig "db.internal" "app" "secret" "orders" "5432" "require" ""
    25%Z 0%Z (5 * time.Minute)%Z 0%Z true logger.Warn 0%Z false.


(** ** Reading and writing the JSONB column ([sql/jsonb.go])

    What [database/sql] hands to [Scan], as far as the type switch tells
    values apart: nil, a byte slice, a string, or a value of another
    dynamic type, of which [%T] prints the name.  A byte slice is kept as
    the string with the same bytes. *)

Inductive scanned : Type :=
| scanned_nil
| scanned_bytes (v : string)
| scanned_string (v : string)
| scanned_other (T : string).

Section JSONBColumn.
Context `{GoRuntime}.
(** [json.Marshal] of the map: the bytes, or a non-nil error *)
Variable json_Marshal : gmap string any -> string + error.
(** decoding into a [map[string]any] variable, by [json.Unmarshal] or by a
    [json.Decoder]: the map (nil for the JSON text null), or a non-nil error *)
Variable json_Unmarshal : string -> JSONB + error.

(** [func (j JSONB) Value() (driver.Value, error)] *)
Definition JSONB_Value (j : JSONB) : option string * option error :=
  match j with
  | None => (None, None)
  | Some g =>
      match json_Marshal g with
      | inr err => (None, Some (Errorf [Lit "failed to marshal JSONB: "; verb_w err]))
      | inl data => (Some data, None)
      end
  end.

(** [func (j *JSONB) Scan(value any) error]: the map behind the receiver
    after the call, and the error *)
Definition JSONB_Scan (j : JSONB) (value : scanned) : JSONB * option error :=
  match value with
  | scanned_nil => (None, None)
  | scanned_other T => (j, Some (errorString ("cannot scan " +:+ T +:+ " into JSONB")))
  | scanned_bytes data | scanned_string data =>
      if Nat.eqb (String.length data) 0 then (Some ∅, None)
      else match json_Unmarshal data with
           | inr err => (j, Some (Errorf [Lit "failed to unmarshal JSONB: "; verb_w err]))
           | inl result => (result, None)
           end
  end.

End JSONBColumn.

(** [type JSONBArray []any]: [None] is the nil slice. *)
Section JSONBArrayColumn.
Context `{GoRuntime}.
Variable json_Marshal : list any -> string + error.
Variable json_Unmarshal : string -> option (list any) + error.

(** [func (j JSONBArray) Value() (driver.Value, error)] *)
Definition JSONBArray_Value (j : option (list any)) : option string * option error :=
  match j with
  | None => (None, None)
  | Some l =>
      match json_Marshal l with
      | inr err => (None, Some (Errorf [Lit "failed to marshal JSONB array: "; verb_w err]))
      | inl data => (Some data, None)
      end
  end.

(** [func (j *JSONBArray) Scan(value any) error] *)
Definition JSONBArray_Scan (j : option (list any)) (value : scanned)
  : option (list any) * option error :=
  match value with
  | scanned_nil => (None, None)
  | scanned_other T => (j, Some (errorString ("cannot scan " +:+ T +:+ " into JSONB array")))
  | scanned_bytes data | scanned_string data =>
      if Nat.eqb (String.length data) 0 then (Some [], None)
      else match json_Unmarshal data with
           | inr err => (j, Some (Errorf [Lit "failed to unmarshal JSONB array: "; verb_w err]))
           | inl result => (result, None)
           end
  end.

End JSONBArrayColumn.

(** ** Opening the relational connection ([sql/gorm.go]) *)

(** [func (c GormConfig) dsn() string]; [%s] prints a string as it is *)
Definition dsn (c : GormConfig) : string :=
  let ssl := SSLMode c in
  let ssl := if String.eqb ssl "" then "disable" else ssl in
  let tz := Timezone c in
  let tz := if String.eqb tz "" then "UTC" else tz in
  "host=" +:+ Host c +:+ " user=" +:+ User c +:+ " password=" +:+ Password c +:+
  " dbname=" +:+ Name c +:+ " port=" +:+ Port c +:+ " sslmode=" +:+ ssl +:+
  " TimeZone=" +:+ tz.

(** [type DBManager struct { *gorm.DB; sqlDB *sql.DB }]; a [*sql.DB] is an
    address *)
Record DBManager : Type := mkDBManager {
  DBManager_DB : option DB;
  sqlDB : option nat;
}.

Section OpenGorm.
Context `{GoRuntime}.

(** the calls [OpenGorm] and the manager make on gorm and on the pool *)
Inductive PoolCall : Type :=
| gorm_Open (dsn : string) (TranslateError : bool) (LogMode : logger.LogLevel)
| db_DB (db : DB)
| SetMaxIdleConns (pool : nat) (n : Z)
| SetMaxOpenConns (pool : nat) (n : Z)
| SetConnMaxLifetime (pool : nat) (d : time.Duration)
| SetConnMaxIdleTime (pool : nat) (d : time.Duration)
| PingContext (pool : nat) (timeout : option time.Duration)
| sqlDB_Close (pool : nat)
| AutoMigrate (db : DB) (models : list any).

(** What gorm and the pool answer, given the calls made before.  The
    timeout of a ping is [Some d] for a context the package creates with
    [context.WithTimeout], [None] for the caller's context. *)
Record Postgres : Type := mkPostgres {
  Open_result : list PoolCall -> string -> bool -> logger.LogLevel -> DB + error;
  DB_result : list PoolCall -> DB -> nat + error;
  Ping_result : list PoolCall -> nat -> option time.Duration -> option error;
  Close_result : list PoolCall -> nat -> option error;
  AutoMigrate_result : list PoolCall -> DB -> list any -> option error;
}.

Variable server : Postgres.

(** [func OpenGorm(c GormConfig, automigrateModels ...interface{})],
    returning a [*DBManager] and an error, started after the calls [t0]:
    the manager, the error, and the calls it made *)
Definition OpenGorm (c : GormConfig) (automigrateModels : list any) (t0 : list PoolCall)
  : (option DBManager * option error) * list PoolCall :=
  match validate c with
  | Some err => ((None, Some (Errorf [Lit "invalid configuration: "; verb_w err])), [])
  | None =>
      let c := setDefaults c in
      let t := [gorm_Open (dsn c) (TranslateErrors c) (LogLevel c)] in
      match Open_result server t0 (dsn c) (TranslateErrors c) (LogLevel c) with
      | inr err => ((None, Some (Errorf [Lit "failed to connect to database: "; verb_w err])), t)
      | inl db =>
          let t' := t ++ [db_DB db] in
          match DB_result server (t0 ++ t) db with
          | inr err =>
              ((None, Some (Errorf [Lit "failed to get underlying sql.DB: "; verb_w err])), t')
          | inl pool =>
              let t := t' ++ [SetMaxIdleConns pool (MaxIdleConns c);
                              SetMaxOpenConns pool (MaxOpenConns c);
                              SetConnMaxLifetime pool (ConnMaxLifetime c);
                              SetConnMaxIdleTime pool (ConnMaxIdleTime c)] in
              let timeout := Some (10 * time.Second)%Z in
              let t' := t ++ [PingContext pool timeout] in
              match Ping_result server (t0 ++ t) pool timeout with
              | Some err =>
                  ((None, Some (Errorf [Lit "failed to ping database: "; verb_w err])),
                   t' ++ [sqlDB_Close pool])
              | None =>
                  if (0 <? length automigrateModels)%nat then
                    let t := t' ++ [AutoMigrate db automigrateModels] in
                    match AutoMigrate_result server (t0 ++ t') db automigrateModels with
                    | Some err =>
                        ((None, Some (Errorf [Lit "failed to auto-migrate: "; verb_w err])),
                         t ++ [sqlDB_Close pool])
                    | None => ((Some (mkDBManager (Some db) (Some pool)), None), t)
                    end
                  else ((Some (mkDBManager (Some db) (Some pool)), None), t')
              end
          end
      end
  end.

(** [func (dm *DBManager) Close() error], on a non-nil manager *)
Definition DBManager_Close (dm : DBManager) (t0 : list PoolCall)
  : option error * list PoolCall :=
  match sqlDB dm with
  | Some pool => (Close_result server t0 pool, [sqlDB_Close pool])
  | None => (None, [])
  end.

(** [func (dm *DBManager) Ping(ctx context.Context) error], on a non-nil
    manager with the caller's context *)
Definition DBManager_Ping (dm : DBManager) (t0 : list PoolCall)
  : option error * list PoolCall :=
  match sqlDB dm with
  | Some pool => (Ping_result server t0 pool None, [PingContext pool None])
  | None => (Some (Errorf [Lit "database connection not initialized"]), [])
  end.

Definition is_Close (c : PoolCall) : bool :=
  match c with sqlDB_Close _ => true | _ => false end.
Definition is_Ping (c : PoolCall) : bool :=
  match c with PingContext _ _ => true | _ => false end.
Definition is_AutoMigrate (c : PoolCall) : bool :=
  match c with AutoMigrate _ _ => true | _ => false end.

(** the value a pool setter is called with, if the call is a pool setter *)
Definition pool_setting (c : PoolCall) : option Z :=
  match c with
  | SetMaxIdleConns _ n | SetMaxOpenConns _ n => Some n
  | SetConnMaxLifetime _ d | SetConnMaxIdleTime _ d => Some d
  | _ => None
  end.

End OpenGorm.

(** ** The document store client (package [mongo]) *)

Module mongo.

Record MongoConfig : Type := mkMongoConfig {
  URI : string;
  DBName : string;
  Timeout : time.Duration;
  MaxPoolSize : N;
  MinPoolSize : N;
  MaxIdleTime : time.Duration;
  MaxConnecting : N;
  ReadPreference : string;
  RetryWrites : bool;
  RetryReads : bool;
}.

(** Assignment to one field of the by-value receiver, [c.F = v]. *)
Definition set_Timeout (c : MongoConfig) (v : time.Duration) : MongoConfig :=
  mkMongoConfig (URI c) (DBName c) v (MaxPoolSize c) (MinPoolSize c) (MaxIdleTime c)
    (MaxConnecting c) (ReadPreference c) (RetryWrites c) (RetryReads c).
Definition set_MaxPoolSize (c : MongoConfig) (v : N) : MongoConfig :=
  mkMongoConfig (URI c) (DBName c) (Timeout c) v (MinPoolSize c) (MaxIdleTime c)
    (MaxConnecting c) (ReadPreference c) (RetryWrites c) (RetryReads c).
Definition set_MinPoolSize (c : MongoConfig) (v : N) : MongoConfig :=
  mkMongoConfig (URI c) (DBName c) (Timeout c) (MaxPoolSize c) v (MaxIdleTime c)
    (MaxConnecting c) (ReadPreference c) (RetryWrites c) (RetryReads c).
Definition set_MaxIdleTime (c : MongoConfig) (v : time.Duration) : MongoConfig :=
  mkMongoConfig (URI c) (DBName c) (Timeout c) (MaxPoolSize c) (MinPoolSize c) v
    (MaxConnecting c) (ReadPreference c) (RetryWrites c) (RetryReads c).
Definition set_MaxConnecting (c : MongoConfig) (v : N) : MongoConfig :=
  mkMongoConfig (URI c) (DBName c) (Timeout c) (MaxPoolSize c) (MinPoolSize c) (MaxIdleTime c)
    v (ReadPreference c) (RetryWrites c) (RetryReads c).
Definition set_ReadPreference (c : MongoConfig) (v : string) : MongoConfig :=
  mkMongoConfig (URI c) (DBName c) (Timeout c) (MaxPoolSize c) (MinPoolSize c) (MaxIdleTime c)
    (MaxConnecting c) v (RetryWrites c) (RetryReads c).

(** [func (c MongoConfig) validate() error] *)
Definition validate (c : MongoConfig) : option error :=
  if String.eqb (URI c) "" then Some (errorString "URI is required")
  else if String.eqb (DBName c) "" then Some (errorString "database name is required")
  else None.

(** [func (c MongoConfig) setDefaults() MongoConfig] *)
Definition setDefaults (c : MongoConfig) : MongoConfig :=
  let c := if (Timeout c <=? 0)%Z then set_Timeout c (10 * time.Second)%Z else c in
  let c := if (MaxPoolSize c =? 0)%N then set_MaxPoolSize c 100%N else c in
  let c := if (MinPoolSize c =? 0)%N then set_MinPoolSize c 5%N else c in
  let c := if (MaxIdleTime c <=? 0)%Z then set_MaxIdleTime c (5 * time.Minute)%Z else c in
  let c := if (MaxConnecting c =? 0)%N then set_MaxConnecting c 10%N else c in
  let c := if String.eqb (ReadPreference c) "" then set_ReadPreference c "primary" else c in
  c.

(** one statement of [setDefaults] on its own *)
Definition step (unset : MongoConfig -> bool) (assign : MongoConfig -> MongoConfig)
    (c : MongoConfig) : MongoConfig :=
  if unset c then assign c else c.

(** [func (c MongoConfig) timeout() time.Duration] *)
Definition timeout (c : MongoConfig) : time.Duration :=
  if (Timeout c <=? 0)%Z then (10 * time.Second)%Z else Timeout c.

(** the read preference modes of the driver's [readpref] package *)
Inductive ReadPref : Type :=
| Primary
| Secondary
| PrimaryPreferred
| SecondaryPreferred
| Nearest.

(** [func (c MongoConfig) getReadPreference()], returning a read preference
    and an error *)
Definition getReadPreference (c : MongoConfig) : ReadPref + error :=
  if String.eqb (ReadPreference c) "primary" then inl Primary
  else if String.eqb (ReadPreference c) "secondary" then inl Secondary
  else if String.eqb (ReadPreference c) "primaryPreferred" then inl PrimaryPreferred
  else if String.eqb (ReadPreference c) "secondaryPreferred" then inl SecondaryPreferred
  else if String.eqb (ReadPreference c) "nearest" then inl Nearest
  else inr (errorString ("invalid read preference: " +:+ ReadPreference c)).

(** the client options [Connect] builds before it connects *)
Record ClientOptions : Type := mkClientOptions {
  opt_URI : string;
  opt_MaxPoolSize : N;
  opt_MinPoolSize : N;
  opt_MaxConnIdleTime : time.Duration;
  opt_MaxConnecting : N;
  opt_ReadPreference : ReadPref;
  opt_RetryWrites : bool;
  opt_RetryReads : bool;
}.

(** The context a driver call runs under: the caller's context (an
    address), or [context.WithTimeout(context.Background(), d)]. *)
Inductive Ctx : Type :=
| caller_ctx (ctx : nat)
| timeout_ctx (d : time.Duration).

(** The calls made on the driver, those of its [options] builder included;
    a [*mongo.Client] and a session are addresses. *)
Inductive Call : Type :=
| options_Client_ApplyURI (uri : string)
| options_SetMaxPoolSize (n : N)
| options_SetMinPoolSize (n : N)
| options_SetMaxConnIdleTime (d : time.Duration)
| options_SetMaxConnecting (n : N)
| options_SetReadPreference (rp : ReadPref)
| options_SetRetryWrites (b : bool)
| options_SetRetryReads (b : bool)
| mongo_Connect (ctx : Ctx) (opts : ClientOptions)
| Client_Ping (client : nat) (ctx : Ctx) (rp : ReadPref)
| Client_Disconnect (client : nat) (ctx : Ctx)
| StartSession (client : nat)
| Session_WithTransaction (session : nat) (ctx : option nat)
| EndSession (session : nat) (ctx : option nat).

(** [type Client struct { Client *mongo.Client; config MongoConfig }] *)
Record Client : Type := mkClient {
  Client_Client : option nat;
  config : MongoConfig;
}.

(** the handle [c.Client.Database(name)], and a collection of it *)
Record Database_ : Type := mkDatabase {
  Database_client : nat;
  Database_name : string;
}.

Record Collection_ : Type := mkCollection {
  Collection_database : Database_;
  Collection_name : string;
}.

Section Driver.
Context `{GoRuntime}.
(** the type of the functions run in a transaction,
    [func(mongo.SessionContext) error] *)
Variable SessionFunc : Type.

(** What the driver answers, given the calls made before.  The driver's
    [session.WithTransaction] runs the callback, which returns what the
    function returns, as often as it sees fit, and ends in an error, in nil
    or in a panic. *)
Record Driver : Type := mkDriver {
  Connect_result : list Call -> Ctx -> ClientOptions -> nat + error;
  Ping_result : list Call -> nat -> Ctx -> ReadPref -> option error;
  Disconnect_result : list Call -> nat -> Ctx -> option error;
  StartSession_result : list Call -> nat -> nat + error;
  WithTransaction_result : list Call -> nat -> option nat -> SessionFunc
                           -> outcome (option error);
}.

Variable driver : Driver.

(** [func Connect(cfg MongoConfig)], returning a [*Client] and an error,
    started after the calls [t0].  The client options are built, call by
    call, before the read preference is looked up; [opts] is what the
    builder holds when [mongo.Connect] is called. *)
Definition Connect (cfg : MongoConfig) (t0 : list Call)
  : (option Client * option error) * list Call :=
  match validate cfg with
  | Some err => ((None, Some (Errorf [Lit "invalid configuration: "; verb_w err])), [])
  | None =>
      let cfg := setDefaults cfg in
      let ctx := timeout_ctx (timeout cfg) in
      let t := [options_Client_ApplyURI (URI cfg);
                options_SetMaxPoolSize (MaxPoolSize cfg);
                options_SetMinPoolSize (MinPoolSize cfg);
                options_SetMaxConnIdleTime (MaxIdleTime cfg);
                options_SetMaxConnecting (MaxConnecting cfg)] in
      match getReadPreference cfg with
      | inr err => ((None, Some (Errorf [Lit "failed to set read preference: "; verb_w err])), t)
      | inl readPref =>
          let t := t ++ [options_SetReadPreference readPref;
                         options_SetRetryWrites (RetryWrites cfg);
                         options_SetRetryReads (RetryReads cfg)] in
          let opts := mkClientOptions (URI cfg) (MaxPoolSize cfg) (MinPoolSize cfg)
                        (MaxIdleTime cfg) (MaxConnecting cfg) readPref
                        (RetryWrites cfg) (RetryReads cfg) in
          let t' := t ++ [mongo_Connect ctx opts] in
          match Connect_result driver (t0 ++ t) ctx opts with
          | inr err =>
              ((None, Some (Errorf [Lit "failed to connect to MongoDB: "; verb_w err])), t')
          | inl client =>
              let t := t' ++ [Client_Ping client ctx readPref] in
              match Ping_result driver (t0 ++ t') client ctx readPref with
              | Some err =>
                  ((None, Some (Errorf [Lit "failed to ping MongoDB: "; verb_w err])),
                   t ++ [Client_Disconnect client ctx])
              | None => ((Some (mkClient (Some client) cfg), None), t)
              end
          end
      end
  end.

(** the context of a method call: the caller's, or one with the configured
    timeout when the caller passes nil *)
Definition effective_ctx (c : Client) (ctx : option nat) : Ctx :=
  match ctx with
  | None => timeout_ctx (timeout (config c))
  | Some ctx => caller_ctx ctx
  end.

(** [func (c *Client) Disconnect(ctx context.Context) error] *)
Definition Disconnect (c : option Client) (ctx : option nat) (t0 : list Call)
  : option error * list Call :=
  match c with
  | None => (None, [])
  | Some c =>
      match Client_Client c with
      | None => (None, [])
      | Some client =>
          let ctx := effective_ctx c ctx in
          (Disconnect_result driver t0 client ctx, [Client_Disconnect client ctx])
      end
  end.

(** [func (c *Client) Ping(ctx context.Context) error] *)
Definition Ping (c : option Client) (ctx : option nat) (t0 : list Call)
  : option error * list Call :=
  match c with
  | None => (Some (Errorf [Lit "client not initialized"]), [])
  | Some c =>
      match Client_Client c with
      | None => (Some (Errorf [Lit "client not initialized"]), [])
      | Some client =>
          let ctx := effective_ctx c ctx in
          let readPref := match getReadPreference (config c) with
                          | inr _ => Primary
                          | inl readPref => readPref
                          end in
          (Ping_result driver t0 client ctx readPref, [Client_Ping client ctx readPref])
      end
  end.

(** [func (c *Client) Database() *mongo.Database] *)
Definition Database (c : option Client) : option Database_ :=
  match c with
  | None => None
  | Some c =>
      match Client_Client c with
      | None => None
      | Some client => Some (mkDatabase client (DBName (config c)))
      end
  end.

(** [func (c *Client) Collection(name string) *mongo.Collection] *)
Definition Collection (c : option Client) (name : string) : option Collection_ :=
  match Database c with
  | None => None
  | Some db => Some (mkCollection db name)
  end.

(** [func (c *Client) IsHealthy(ctx context.Context) bool] *)
Definition IsHealthy (c : option Client) (ctx : option nat) (t0 : list Call)
  : bool * list Call :=
  let '(err, t) := Ping c ctx t0 in
  (match err with None => true | Some _ => false end, t).

(** [func (c *Client) WithTransaction(ctx, fn) error]; the deferred
    [session.EndSession(ctx)] runs when the function returns and when it
    panics *)
Definition WithTransaction (c : option Client) (ctx : option nat) (fn : SessionFunc)
    (t0 : list Call) : outcome (option error) * list Call :=
  let uninitialised : outcome (option error) * list Call :=
    (Return (Some (Errorf [Lit "client not initialized"])), []) in
  match c with
  | None => uninitialised
  | Some c =>
      match Client_Client c with
      | None => uninitialised
      | Some client =>
          match StartSession_result driver t0 client with
          | inr err =>
              (Return (Some (Errorf [Lit "failed to start session: "; verb_w err])),
               [StartSession client])
          | inl session =>
              let t := [StartSession client; Session_WithTransaction session ctx] in
              match WithTransaction_result driver (t0 ++ [StartSession client]) session ctx fn with
              | Return err => (Return err, t ++ [EndSession session ctx])
              | Panic r => (Panic r, t ++ [EndSession session ctx])
              end
          end
      end
  end.

End Driver.

Arguments Connect_result {_ _} d _ _ _.
Arguments Ping_result {_ _} d _ _ _ _.
Arguments Disconnect_result {_ _} d _ _ _.
Arguments StartSession_result {_ _} d _ _.
Arguments WithTransaction_result {_ _} d _ _ _ _.
Arguments Connect {_ _} driver cfg t0.
Arguments Disconnect {_ _} driver c ctx t0.
Arguments Ping {_ _} driver c ctx t0.
Arguments IsHealthy {_ _} driver c ctx t0.
Arguments WithTransaction {_ _} driver c ctx fn t0.

End mongo.

(** the five names [getReadPreference] knows *)
Definition known_read_preference (s : string) : Prop :=
  s = "primary" \/ s = "secondary" \/ s = "primaryPreferred"
  \/ s = "secondaryPreferred" \/ s = "nearest".

Section MoreScenarios.
Existing Instance scenario_runtime.


(** A handle as [gorm.Open] returns it: its [Statement] is set and points
    back to the handle, and no transaction has been begun on it. *)
Definition opened : DB := mkDB 1 None (Some (mkStatement (Some 1))).

(** a unit of work that opens a nested scope around the README's two
    insertions *)
Definition nested_create (store : Store) : TransactionFunc :=
  fun tx => WithNestedTransaction store (Some tx) (create_user_and_profile store).

End MoreScenarios.

(** ** Base models (package [sql], the model fragments)

    A [uuid.UUID] is sixteen bytes, kept as the number they spell;
    [uuid.Nil] is all zero.  A [time.Time] is kept as its Unix time in
    nanoseconds. *)

Module uuid.
Definition UUID : Type := Z.
Definition Nil : UUID := 0%Z.
End uuid.

Record BaseModel : Type := mkBaseModel {
  BaseModel_ID : uuid.UUID;
  CreatedAt : Z;
  UpdatedAt : Z;
  DeletedAt : option Z;
}.

(** [func (b *BaseModel) BeforeCreate(tx *gorm.DB) error]: the model behind
    the receiver after the call, and the error; [fresh] is what
    [uuid.New()] returns if it is called *)
Definition BaseModel_BeforeCreate (fresh : uuid.UUID) (b : BaseModel)
  : BaseModel * option error :=
  (if (BaseModel_ID b =? uuid.Nil)%Z
   then mkBaseModel fresh (CreatedAt b) (UpdatedAt b) (DeletedAt b)
   else b,
   None).

(** [func (b BaseModel) IsDeleted() bool] *)
Definition BaseModel_IsDeleted (b : BaseModel) : bool :=
  match DeletedAt b with Some _ => true | None => false end.

(** [type ID struct { ID uuid.UUID }] and its
    [func (i *ID) BeforeCreate(tx *gorm.DB) error] *)
Definition ID_BeforeCreate (fresh : uuid.UUID) (i : uuid.UUID) : uuid.UUID * option error :=
  (if (i =? uuid.Nil)%Z then fresh else i, None).

(** [type NullableUUID struct { UUID uuid.UUID; Valid bool }] *)
Record NullableUUID : Type := mkNullableUUID {
  NullableUUID_UUID : uuid.UUID;
  Valid : bool;
}.

Section NullableUUIDMethods.
(** [UnmarshalText] and [Scan] on a [*UUID] of the uuid package: the
    UUID behind the receiver after the call, and the error; for [Scan] the
    operand is the value handed over *)
Variable UnmarshalText : uuid.UUID -> string -> uuid.UUID * option error.
Variable UUID_Scan : uuid.UUID -> scanned -> uuid.UUID * option error.
(** [UUID.String] *)
Variable UUID_String : uuid.UUID -> string.

(** [func (nu *NullableUUID) Scan(value interface{}) error] *)
Definition NullableUUID_Scan (nu : NullableUUID) (value : scanned)
  : NullableUUID * option error :=
  match value with
  | scanned_nil => (mkNullableUUID uuid.Nil false, None)
  | scanned_string v | scanned_bytes v =>
      let nu := mkNullableUUID (NullableUUID_UUID nu) true in
      let '(u, err) := UnmarshalText (NullableUUID_UUID nu) v in
      (mkNullableUUID u (Valid nu), err)
  | scanned_other _ =>
      let nu := mkNullableUUID (NullableUUID_UUID nu) true in
      let '(u, err) := UUID_Scan (NullableUUID_UUID nu) value in
      (mkNullableUUID u (Valid nu), err)
  end.

(** [func (nu NullableUUID) Value() (driver.Value, error)] *)
Definition NullableUUID_Value (nu : NullableUUID) : option string * option error :=
  if negb (Valid nu) then (None, None)
  else (Some (UUID_String (NullableUUID_UUID nu)), None).

End NullableUUIDMethods.

Section ExtraScenarios.
Existing Instance scenario_runtime.

(** a JSONB document with one key *)
Definition settings : gmap string any := {[ "theme" := string_any "dark" ]}.

(** an encoder and a decoder that know the empty object only *)
Definition encode_empty_object (g : gmap string any) : string + error :=
  match map_to_list g with
  | [] => inl "{}"
  | _ => inr (errorString "unsupported value")
  end.

Definition decode_empty_object (data : string) : JSONB + error :=
  if String.eqb data "{}" then inl (Some ∅) else inr (errorString "unexpected input").

(** a database server on which every call succeeds *)
Definition healthy_server : Postgres :=
  {| Open_result := fun _ _ _ _ => inl conn;
     DB_result := fun _ _ => inl 7;
     Ping_result := fun _ _ _ => None;
     Close_result := fun _ _ => None;
     AutoMigrate_result := fun _ _ _ => None |}.

(** a document store on which every call succeeds; the functions run in a
    transaction are not looked into *)
Definition healthy_driver : mongo.Driver unit :=
  {| mongo.Connect_result := fun _ _ _ => inl 3;
     mongo.Ping_result := fun _ _ _ _ => None;
     mongo.Disconnect_result := fun _ _ _ => None;
     mongo.StartSession_result := fun _ _ => inl 4;
     mongo.WithTransaction_result := fun _ _ _ _ => Return None |}.

End ExtraScenarios.

(** a document store configuration with every optional field left unset *)
Definition local_mongo : mongo.MongoConfig :=
  mongo.mkMongoConfig "mongodb://localhost:27017" "orders" 0%Z 0%N 0%N 0%Z 0%N "" true true.

(** * Properties *)

Section ExecutorProperties.
Context `{GoRuntime}.
Variable store : Store.

Lemma WithTransaction_unfold db fn :
  WithTransaction store db fn = WithTransactionContext store Background db fn.
Proof. reflexivity. Qed.

Lemma WithNestedTransaction_unfold db fn :
  WithNestedTransaction store db fn = WithNestedTransactionContext store Background db fn.
Proof. reflexivity. Qed.

Lemma count_cons kind c t :
  count kind (c :: t) = if kind c then S (count kind t) else count kind t.
Proof. unfold count. simpl. destruct (kind c); reflexivity. Qed.

Lemma count_app kind t1 t2 : count kind (t1 ++ t2) = count kind t1 + count kind t2.
Proof. unfold count. rewrite List.filter_app, length_app. reflexivity. Qed.

Lemma count_nil kind : count kind [] = 0.
Proof. reflexivity. Qed.

Lemma append_empty_r (s : string) : s +:+ "" = s.
Proof.
  induction s as [|a s IH]; [reflexivity|].
  change (String a (s +:+ "") = String a s). now rewrite IH.
Qed.

Lemma Errorf_plain (msg : string) : Errorf [Lit msg] = errorString msg.
Proof. unfold Errorf. cbn. now rewrite append_empty_r. Qed.

Lemma Errorf_wrap (msg : string) (e : error) :
  Errorf [Lit msg; verb_w e] = wrapError (msg +:+ Error e) e.
Proof. unfold Errorf. cbn. now rewrite append_empty_r. Qed.

Lemma Errorf_wrap_and_show (msg1 msg2 : string) (e e' : error) :
  Errorf [Lit msg1; verb_w e; Lit msg2; verb_v e'] =
  wrapError (msg1 +:+ Error e +:+ msg2 +:+ Error e') e.
Proof. unfold Errorf. cbn. now rewrite append_empty_r. Qed.

Ltac run_executor :=
  unfold WithNestedTransaction, WithTransaction, WithNestedTransactionContext,
    WithTransactionContext, bind, Begin, Commit, Rollback, SavePoint, RollbackTo,
    call, defer_recover, ret, panic.

Ltac count_calls :=
  repeat (rewrite ?count_cons, ?count_app, ?count_nil; cbn [is_begin is_commit is_rollback
    is_savepoint is_rollback_to]); lia.

(** C1: when the unit of work returns success, the executor's own calls are
    the begin before it and exactly one commit after it, and no rollback;
    the result is nil when the commit succeeds and otherwise the error
    "failed to commit transaction: ..." wrapping the commit failure. *)
Theorem commit_once_on_success :
  forall (ctx : Context_) (db : DB) (fn : TransactionFunc) (h w : Trace),
    let tx := Begin_result store h ctx db in
    let c := Commit_result store ((h ++ [CBegin ctx db]) ++ w) tx in
    let calls := CBegin ctx db :: w ++ [CCommit tx] in
    let result := match DB_Error c with
                  | Some err => Some (wrapError ("failed to commit transaction: " +:+ Error err) err)
                  | None => None
                  end in
    DB_Error tx = None ->
    fn tx (h ++ [CBegin ctx db]) = (Return None, w) ->
    WithTransactionContext store ctx (Some db) fn h = (Return result, calls)
    /\ (ctx = Background -> WithTransaction store (Some db) fn h = (Return result, calls))
    /\ count is_commit calls = S (count is_commit w)
    /\ count is_rollback calls = count is_rollback w.
Proof.
  intros ctx db fn h w tx c calls result Hbegin Hfn.
  assert (Hrun : WithTransactionContext store ctx (Some db) fn h = (Return result, calls)).
  { run_executor. fold tx. rewrite Hbegin, Hfn. fold c. subst result calls.
    destruct (DB_Error c) as [err|]; [rewrite Errorf_wrap|]; reflexivity. }
  split; [exact Hrun|]. split.
  - intros ->. exact Hrun.
  - subst calls. split; count_calls.
Qed.

(** C2: when the unit of work returns an ordinary failure, the executor's
    own calls are the begin before it and exactly one rollback after it, and
    no commit; the returned error wraps the unit of work's failure. *)
Theorem rollback_once_on_failure :
  forall (ctx : Context_) (db : DB) (fn : TransactionFunc) (h w : Trace) (err : error),
    let tx := Begin_result store h ctx db in
    let rb := Rollback_result store ((h ++ [CBegin ctx db]) ++ w) tx in
    let calls := CBegin ctx db :: w ++ [CRollback tx] in
    let result := match DB_Error rb with
                  | Some rollbackErr =>
                      wrapError ("transaction failed: " +:+ Error err +:+
                                 ", rollback failed: " +:+ Error rollbackErr) err
                  | None => wrapError ("transaction failed: " +:+ Error err) err
                  end in
    DB_Error tx = None ->
    fn tx (h ++ [CBegin ctx db]) = (Return (Some err), w) ->
    WithTransactionContext store ctx (Some db) fn h = (Return (Some result), calls)
    /\ (ctx = Background ->
        WithTransaction store (Some db) fn h = (Return (Some result), calls))
    /\ count is_rollback calls = S (count is_rollback w)
    /\ count is_commit calls = count is_commit w
    /\ Unwrap result = Some err.
Proof.
  intros ctx db fn h w err tx rb calls result Hbegin Hfn.
  assert (Hrun : WithTransactionContext store ctx (Some db) fn h
                 = (Return (Some result), calls)).
  { run_executor. fold tx. rewrite Hbegin, Hfn. fold rb. subst result calls.
    destruct (DB_Error rb) as [rollbackErr|];
      [rewrite Errorf_wrap_and_show|rewrite Errorf_wrap]; reflexivity. }
  split; [exact Hrun|]. split; [intros ->; exact Hrun|].
  subst calls result. repeat split; try count_calls.
  destruct (DB_Error rb); reflexivity.
Qed.

(** C3: when the unit of work panics with value [r], the executor calls
    rollback on the open transaction as its last store call and the call
    ends in a panic with the same value [r], not in an error return. *)
Theorem rollback_then_repanic :
  forall (ctx : Context_) (db : DB) (fn : TransactionFunc) (h w : Trace) (r : any),
    let tx := Begin_result store h ctx db in
    DB_Error tx = None ->
    fn tx (h ++ [CBegin ctx db]) = (Panic r, w) ->
    WithTransactionContext store ctx (Some db) fn h
    = (Panic r, CBegin ctx db :: w ++ [CRollback tx]).
Proof.
  intros ctx db fn h w r tx Hbegin Hfn.
  run_executor. fold tx. rewrite Hbegin, Hfn. reflexivity.
Qed.

Lemma Contains_middle (pre s post : string) : Contains (pre +:+ s +:+ post) s.
Proof. exists pre, post. reflexivity. Qed.

Lemma Contains_end (pre s : string) : Contains (pre +:+ s) s.
Proof. exists pre, "". now rewrite append_empty_r. Qed.

Lemma append_assoc (a b c : string) : (a +:+ b) +:+ c = a +:+ b +:+ c.
Proof.
  induction a as [|x a IH]; [reflexivity|].
  change (String x ((a +:+ b) +:+ c) = String x (a +:+ b +:+ c)). now rewrite IH.
Qed.

Lemma Contains_both (m1 s1 m2 s2 : string) :
  Contains (m1 +:+ s1 +:+ m2 +:+ s2) s1 /\ Contains (m1 +:+ s1 +:+ m2 +:+ s2) s2.
Proof.
  split.
  - apply Contains_middle.
  - rewrite <- !append_assoc. apply Contains_end.
Qed.

(** C4: when the unit of work fails and the rollback that follows fails
    too, the one error returned carries both messages and wraps the
    original failure; this holds for the fresh transaction (rollback) and
    for the savepoint branch (rollback to the savepoint). *)
Theorem both_failures_reported :
  forall (ctx : Context_) (db : DB) (fn : TransactionFunc) (h w : Trace)
         (err rollbackErr : error),
    (let tx := Begin_result store h ctx db in
     DB_Error tx = None ->
     fn tx (h ++ [CBegin ctx db]) = (Return (Some err), w) ->
     DB_Error (Rollback_result store ((h ++ [CBegin ctx db]) ++ w) tx) = Some rollbackErr ->
     exists e,
       WithTransactionContext store ctx (Some db) fn h
       = (Return (Some e), CBegin ctx db :: w ++ [CRollback tx])
       /\ Contains (Error e) (Error err)
       /\ Contains (Error e) (Error rollbackErr)
       /\ Unwrap e = Some err)
    /\
    (let name := savepoint_name ctx in
     in_transaction db = true ->
     DB_Error (SavePoint_result store h db name) = None ->
     fn db (h ++ [CSavePoint db name]) = (Return (Some err), w) ->
     DB_Error (RollbackTo_result store ((h ++ [CSavePoint db name]) ++ w) db name)
     = Some rollbackErr ->
     exists e,
       WithNestedTransactionContext store ctx (Some db) fn h
       = (Return (Some e), CSavePoint db name :: w ++ [CRollbackTo db name])
       /\ Contains (Error e) (Error err)
       /\ Contains (Error e) (Error rollbackErr)
       /\ Unwrap e = Some err).
Proof.
  intros ctx db fn h w err rollbackErr. split.
  - intros tx Hbegin Hfn Hrb.
    exists (wrapError ("transaction failed: " +:+ Error err +:+
                       ", rollback failed: " +:+ Error rollbackErr) err).
    split.
    + run_executor. fold tx. rewrite Hbegin, Hfn, Hrb, Errorf_wrap_and_show. reflexivity.
    + cbn [Error Unwrap]. pose proof (Contains_both "transaction failed: " (Error err)
        ", rollback failed: " (Error rollbackErr)) as [? ?]. auto.
  - intros name Hin Hsp Hfn Hrb.
    exists (wrapError ("nested transaction failed: " +:+ Error err +:+
                       ", savepoint rollback failed: " +:+ Error rollbackErr) err).
    split.
    + run_executor. rewrite Hin. fold name. rewrite Hsp, Hfn, Hrb, Errorf_wrap_and_show.
      reflexivity.
    + cbn [Error Unwrap]. pose proof (Contains_both "nested transaction failed: " (Error err)
        ", savepoint rollback failed: " (Error rollbackErr)) as [? ?]. auto.
Qed.

(** What the savepoint branch does, case by case. *)
Lemma savepoint_branch :
  forall (ctx : Context_) (db : DB) (fn : TransactionFunc) (h w : Trace)
         (o : outcome (option error)),
    let name := savepoint_name ctx in
    let sp := SavePoint_result store h db name in
    let rb := RollbackTo_result store ((h ++ [CSavePoint db name]) ++ w) db name in
    in_transaction db = true ->
    fn db (h ++ [CSavePoint db name]) = (o, w) ->
    exists (o' : outcome (option error)) (calls : Trace),
      WithNestedTransactionContext store ctx (Some db) fn h = (o', calls)
      /\ match DB_Error sp with
         | Some spErr =>
             o' = Return (Some (wrapError ("failed to create savepoint: " +:+ Error spErr)
                                          spErr))
             /\ calls = [CSavePoint db name]
         | None =>
             count is_savepoint calls = S (count is_savepoint w)
             /\ count is_begin calls = count is_begin w
             /\ count is_commit calls = count is_commit w
             /\ count is_rollback calls = count is_rollback w
             /\ match o with
                | Return None =>
                    o' = Return None /\ calls = CSavePoint db name :: w
                | Return (Some err) =>
                    calls = CSavePoint db name :: w ++ [CRollbackTo db name]
                    /\ o' = Return (Some
                          match DB_Error rb with
                          | Some rollbackErr =>
                              wrapError ("nested transaction failed: " +:+ Error err +:+
                                         ", savepoint rollback failed: " +:+
                                         Error rollbackErr) err
                          | None =>
                              wrapError ("nested transaction failed: " +:+ Error err) err
                          end)
                | Panic r =>
                    o' = Panic r
                    /\ calls = CSavePoint db name :: w ++ [CRollbackTo db name]
                end
         end.
Proof.
  intros ctx db fn h w o name sp rb Hin Hfn.
  run_executor. rewrite Hin. fold name sp.
  destruct (DB_Error sp) as [spErr|].
  { rewrite Errorf_wrap. eexists _, _. repeat split. }
  rewrite Hfn. destruct o as [[err|]|r].
  - fold rb. destruct (DB_Error rb) as [rollbackErr|];
      [rewrite Errorf_wrap_and_show|rewrite Errorf_wrap];
      (eexists _, _; split; [reflexivity|]); cbn [app];
      (repeat split; try count_calls).
  - eexists _, _; split; [reflexivity|]. cbn [app]. rewrite app_nil_r.
    repeat split; count_calls.
  - eexists _, _; split; [reflexivity|]. cbn [app].
    repeat split; count_calls.
Qed.

(** A nested scope opened inside a nested scope under the same context
    creates its savepoint under the name the outer scope used. *)
Lemma nested_chain_reuses_name :
  forall (ctx : Context_) (db : DB) (fn : TransactionFunc) (h : Trace),
    let name := savepoint_name ctx in
    in_transaction db = true ->
    DB_Error (SavePoint_result store h db name) = None ->
    DB_Error (SavePoint_result store (h ++ [CSavePoint db name]) db name) = None ->
    exists (o : outcome (option error)) (w : Trace),
      WithNestedTransactionContext store ctx (Some db)
        (fun tx => WithNestedTransactionContext store ctx (Some tx) fn) h
      = (o, CSavePoint db name :: CSavePoint db name :: w).
Proof.
  intros ctx db fn h name Hin Hsp1 Hsp2.
  destruct (fn db ((h ++ [CSavePoint db name]) ++ [CSavePoint db name])) as [o2 w2] eqn:Hfn.
  destruct (savepoint_branch ctx db fn (h ++ [CSavePoint db name]) w2 o2 Hin Hfn)
    as (o1 & w1 & Hinner & Hcase1).
  fold name in Hcase1. rewrite Hsp2 in Hcase1.
  destruct (savepoint_branch ctx db
              (fun tx => WithNestedTransactionContext store ctx (Some tx) fn)
              h w1 o1 Hin Hinner) as (o & calls & Houter & Hcase).
  fold name in Hcase. rewrite Hsp1 in Hcase.
  assert (Hw1 : exists rest, w1 = CSavePoint db name :: rest).
  { destruct Hcase1 as (_ & _ & _ & _ & Hcase1).
    destruct o2 as [[err|]|r]; [destruct Hcase1 as [-> _]|destruct Hcase1 as [_ ->]
                               |destruct Hcase1 as [_ ->]]; eauto. }
  destruct Hw1 as [rest ->].
  rewrite Houter. destruct Hcase as (_ & _ & _ & _ & Hcase).
  destruct o1 as [[err|]|r]; [destruct Hcase as [-> _]|destruct Hcase as [_ ->]
                             |destruct Hcase as [_ ->]]; cbn [app]; eauto.
Qed.

(** With integer ids in the context, different ids give different names. *)
Lemma savepoint_name_of_id (ctx : Context_) (n : Z) :
  savepoint_name (WithValue ctx "savepoint_id" (int_any n)) = "sp_" +:+ pretty n.
Proof. unfold savepoint_name. cbn. now rewrite append_empty_r. Qed.

Lemma savepoint_name_distinct_ids (ctx ctx' : Context_) (n m : Z) :
  n <> m ->
  savepoint_name (WithValue ctx "savepoint_id" (int_any n))
  <> savepoint_name (WithValue ctx' "savepoint_id" (int_any m)).
Proof.
  intros Hne Heq. rewrite !savepoint_name_of_id in Heq.
  apply String.app_inj in Heq. apply pretty_Z_inj in Heq. contradiction.
Qed.

(** C5: on a handle that is already in a transaction the nested entry
    points first create a savepoint; if the store refuses it they return
    "failed to create savepoint: ..." at once.  Otherwise they run the unit
    of work on that same handle, and their own calls are the savepoint and,
    after a failure or a panic, one rollback to that savepoint: no begin,
    commit or full rollback.  Success returns nil, a failure comes back
    wrapped as "nested transaction failed: ...", a panic is raised again
    with its value after the rollback to the savepoint. *)
Theorem nested_uses_savepoint :
  forall (ctx : Context_) (db : DB) (fn : TransactionFunc) (h w : Trace)
         (o : outcome (option error)),
    let name := savepoint_name ctx in
    let sp := SavePoint_result store h db name in
    let rb := RollbackTo_result store ((h ++ [CSavePoint db name]) ++ w) db name in
    in_transaction db = true ->
    fn db (h ++ [CSavePoint db name]) = (o, w) ->
    exists (o' : outcome (option error)) (calls : Trace),
      WithNestedTransactionContext store ctx (Some db) fn h = (o', calls)
      /\ (ctx = Background -> WithNestedTransaction store (Some db) fn h = (o', calls))
      /\ match DB_Error sp with
         | Some spErr =>
             o' = Return (Some (wrapError ("failed to create savepoint: " +:+ Error spErr)
                                          spErr))
             /\ calls = [CSavePoint db name]
         | None =>
             count is_savepoint calls = S (count is_savepoint w)
             /\ count is_begin calls = count is_begin w
             /\ count is_commit calls = count is_commit w
             /\ count is_rollback calls = count is_rollback w
             /\ match o with
                | Return None =>
                    o' = Return None /\ calls = CSavePoint db name :: w
                | Return (Some err) =>
                    calls = CSavePoint db name :: w ++ [CRollbackTo db name]
                    /\ o' = Return (Some
                          match DB_Error rb with
                          | Some rollbackErr =>
                              wrapError ("nested transaction failed: " +:+ Error err +:+
                                         ", savepoint rollback failed: " +:+
                                         Error rollbackErr) err
                          | None =>
                              wrapError ("nested transaction failed: " +:+ Error err) err
                          end)
                | Panic r =>
                    o' = Panic r
                    /\ calls = CSavePoint db name :: w ++ [CRollbackTo db name]
                end
         end.
Proof.
  intros ctx db fn h w o name sp rb Hin Hfn.
  destruct (savepoint_branch ctx db fn h w o Hin Hfn) as (o' & calls & Hrun & Hrest).
  exists o', calls. split; [exact Hrun|]. split; [intros ->; exact Hrun|exact Hrest].
Qed.

(** The last branch of the nested entry points: on a non-nil handle that
    fails the test [in_transaction] they give exactly the result and the
    store calls of the plain ones, and the first store call is the begin of
    a fresh transaction. *)
Theorem nested_without_transaction_delegates :
  forall (ctx : Context_) (db : DB) (fn : TransactionFunc) (h : Trace),
    in_transaction db = false ->
    WithNestedTransactionContext store ctx (Some db) fn h
    = WithTransactionContext store ctx (Some db) fn h
    /\ WithNestedTransaction store (Some db) fn h = WithTransaction store (Some db) fn h
    /\ exists o w, WithNestedTransactionContext store ctx (Some db) fn h
                   = (o, CBegin ctx db :: w).
Proof.
  intros ctx db fn h Hout.
  assert (Hctx : forall c, WithNestedTransactionContext store c (Some db) fn h
                           = WithTransactionContext store c (Some db) fn h).
  { intros c. unfold WithNestedTransactionContext. rewrite Hout. reflexivity. }
  split; [apply Hctx|]. split; [apply Hctx|].
  rewrite Hctx. unfold WithTransactionContext, bind, Begin, call.
  match goal with |- context [let '(o, w') := ?e in _] => destruct e as [o w'] end.
  eexists _, _. reflexivity.
Qed.

(** C8: every entry point, given a nil handle, returns the error
    "database connection is nil" and makes no store call. *)
Theorem nil_handle_is_rejected :
  forall (ctx : Context_) (fn : TransactionFunc) (h : Trace),
    let rejected : outcome (option error) * Trace :=
      (Return (Some (errorString "database connection is nil")), []) in
    WithTransaction store None fn h = rejected
    /\ WithTransactionContext store ctx None fn h = rejected
    /\ WithNestedTransaction store None fn h = rejected
    /\ WithNestedTransactionContext store ctx None fn h = rejected.
Proof.
  intros ctx fn h rejected. subst rejected. run_executor.
  rewrite Errorf_plain. repeat split.
Qed.

End ExecutorProperties.

Section ScenarioProperties.
Existing Instance scenario_runtime.

Lemma savepoint_name_Background : savepoint_name Background = "sp_%!d(<nil>)".
Proof. reflexivity. Qed.

(** C7 (the code falls short of it): with the plain entry points, a scope
    nested in a scope of one transaction creates two savepoints under the
    one name [sp_%!d(<nil>)], both active at the same time; with a context
    that carries savepoint id 1 handed down the chain, both are [sp_1]. *)
Theorem savepoint_names_collide :
  let store := scenario_store false false false in
  let ctx := WithValue Background "savepoint_id" (int_any 1) in
  let during name := [CBegin Background conn; CSavePoint tx1 name; CSavePoint tx1 name;
                      CExec tx1 "INSERT INTO users"] in
  (WithTransaction store (Some conn) (nested_twice store) []
   = (Return None, during "sp_%!d(<nil>)" ++ [CCommit tx1])
   /\ active_savepoints (during "sp_%!d(<nil>)") = ["sp_%!d(<nil>)"; "sp_%!d(<nil>)"]
   /\ ~ NoDup (active_savepoints (during "sp_%!d(<nil>)")))
  /\
  (WithTransaction store (Some conn) (nested_twice_ctx store ctx) []
   = (Return None, during "sp_1" ++ [CCommit tx1])
   /\ active_savepoints (during "sp_1") = ["sp_1"; "sp_1"]
   /\ ~ NoDup (active_savepoints (during "sp_1"))).
Proof.
  intros store ctx during.
  split; (split; [vm_compute; reflexivity|]); (split; [reflexivity|]);
    intros Hnodup; apply NoDup_cons_1_1 in Hnodup; apply Hnodup; left.
Qed.

End ScenarioProperties.

Section JSONBProperties.
Context `{GoRuntime}.

(** Without the nil guard of [Set], the assignment would fault. *)
Lemma map_assign_nil_faults (key : string) (value : any) :
  map_assign None key value = Panic nil_map_assignment.
Proof. reflexivity. Qed.

(** C9: on the nil map every accessor returns without a fault: the getters
    give the zero value and false, [Has] false, [Keys] the nil slice,
    [IsEmpty] true, [String] the text null, [Clone] nil, and [Set] and
    [Delete] return normally with the receiver still nil. *)
Theorem JSONB_nil_receiver :
  forall (json_Marshal : gmap string any -> string + error)
         (float64_to_int : float64 -> Z) (Number_Int64 : string -> option Z)
         (key : string) (value : any),
    Get None key = (nil_any, false)
    /\ GetString None key = ("", false)
    /\ GetInt float64_to_int Number_Int64 None key = (0%Z, false)
    /\ GetBool None key = (false, false)
    /\ Has None key = false
    /\ Keys None = None
    /\ IsEmpty None = true
    /\ String_ json_Marshal None = "null"
    /\ Clone None = None
    /\ Set_ None key value = Return None
    /\ Delete None key = None.
Proof. intros. repeat split. Qed.

End JSONBProperties.

Section SetDefaultsProperties.

Lemma setDefaults_steps (c : GormConfig) :
  setDefaults c =
  step (fun c => (SlowThreshold c <=? 0)%Z)
       (fun c => set_SlowThreshold c (200 * time.Millisecond)%Z)
    (step (fun c => (LogLevel c =? 0)%Z) (fun c => set_LogLevel c logger.Info)
    (step (fun c => (ConnMaxIdleTime c <=? 0)%Z)
          (fun c => set_ConnMaxIdleTime c (10 * time.Minute)%Z)
    (step (fun c => (ConnMaxLifetime c <=? 0)%Z)
          (fun c => set_ConnMaxLifetime c (30 * time.Minute)%Z)
    (step (fun c => (MaxOpenConns c <=? 0)%Z) (fun c => set_MaxOpenConns c 100%Z)
    (step (fun c => (MaxIdleConns c <=? 0)%Z) (fun c => set_MaxIdleConns c 10%Z)
    (step (fun c => String.eqb (Timezone c) "") (fun c => set_Timezone c "UTC")
    (step (fun c => String.eqb (SSLMode c) "") (fun c => set_SSLMode c "disable")
       c))))))).
Proof. reflexivity. Qed.

Lemma if_constructor (b : bool) (c c' : GormConfig) :
  (if b then c else c') =
  mkGormConfig
    (if b then Host c else Host c') (if b then User c else User c')
    (if b then Password c else Password c') (if b then Name c else Name c')
    (if b then Port c else Port c') (if b then SSLMode c else SSLMode c')
    (if b then Timezone c else Timezone c')
    (if b then MaxIdleConns c else MaxIdleConns c')
    (if b then MaxOpenConns c else MaxOpenConns c')
    (if b then ConnMaxLifetime c else ConnMaxLifetime c')
    (if b then ConnMaxIdleTime c else ConnMaxIdleTime c')
    (if b then TranslateErrors c else TranslateErrors c')
    (if b then LogLevel c else LogLevel c')
    (if b then SlowThreshold c else SlowThreshold c')
    (if b then IgnoreRecordNotFoundError c else IgnoreRecordNotFoundError c').
Proof. destruct b, c, c'; reflexivity. Qed.

Lemma if_same {A : Type} (b : bool) (x : A) : (if b then x else x) = x.
Proof. destruct b; reflexivity. Qed.

Ltac push_if_inside :=
  match goal with |- context [if ?b then ?x else ?y] =>
    match type of x with GormConfig => rewrite (if_constructor b x y) end end;
  cbn [Host User Password Name Port SSLMode Timezone MaxIdleConns MaxOpenConns
       ConnMaxLifetime ConnMaxIdleTime TranslateErrors LogLevel SlowThreshold
       IgnoreRecordNotFoundError set_SSLMode set_Timezone set_MaxIdleConns
       set_MaxOpenConns set_ConnMaxLifetime set_ConnMaxIdleTime set_LogLevel
       set_SlowThreshold];
  rewrite ?if_same.

(** [setDefaults] field by field *)
Lemma setDefaults_fields (c : GormConfig) :
  setDefaults c =
  mkGormConfig (Host c) (User c) (Password c) (Name c) (Port c)
    (if String.eqb (SSLMode c) "" then "disable" else SSLMode c)
    (if String.eqb (Timezone c) "" then "UTC" else Timezone c)
    (if (MaxIdleConns c <=? 0)%Z then 10%Z else MaxIdleConns c)
    (if (MaxOpenConns c <=? 0)%Z then 100%Z else MaxOpenConns c)
    (if (ConnMaxLifetime c <=? 0)%Z then (30 * time.Minute)%Z else ConnMaxLifetime c)
    (if (ConnMaxIdleTime c <=? 0)%Z then (10 * time.Minute)%Z else ConnMaxIdleTime c)
    (TranslateErrors c)
    (if (LogLevel c =? 0)%Z then logger.Info else LogLevel c)
    (if (SlowThreshold c <=? 0)%Z then (200 * time.Millisecond)%Z else SlowThreshold c)
    (IgnoreRecordNotFoundError c).
Proof.
  rewrite setDefaults_steps. destruct c.
  unfold step at 8; push_if_inside. unfold step at 7; push_if_inside.
  unfold step at 6; push_if_inside. unfold step at 5; push_if_inside.
  unfold step at 4; push_if_inside. unfold step at 3; push_if_inside.
  unfold step at 2; push_if_inside. unfold step at 1; push_if_inside.
  reflexivity.
Qed.

(** C10: [setDefaults] applied twice gives what it gives applied once; a
    non-empty [SSLMode] or [Timezone] and a positive pool size, lifetime,
    idle time, log level or slow threshold is kept; [Host], [User],
    [Password], [Name], [Port] and the two flags are kept in every case. *)
Theorem setDefaults_idempotent_and_conservative :
  forall c : GormConfig,
    setDefaults (setDefaults c) = setDefaults c
    /\ (SSLMode c <> "" -> SSLMode (setDefaults c) = SSLMode c)
    /\ (Timezone c <> "" -> Timezone (setDefaults c) = Timezone c)
    /\ (0 < MaxIdleConns c -> MaxIdleConns (setDefaults c) = MaxIdleConns c)%Z
    /\ (0 < MaxOpenConns c -> MaxOpenConns (setDefaults c) = MaxOpenConns c)%Z
    /\ (0 < ConnMaxLifetime c -> ConnMaxLifetime (setDefaults c) = ConnMaxLifetime c)%Z
    /\ (0 < ConnMaxIdleTime c -> ConnMaxIdleTime (setDefaults c) = ConnMaxIdleTime c)%Z
    /\ (0 < LogLevel c -> LogLevel (setDefaults c) = LogLevel c)%Z
    /\ (0 < SlowThreshold c -> SlowThreshold (setDefaults c) = SlowThreshold c)%Z
    /\ Host (setDefaults c) = Host c
    /\ User (setDefaults c) = User c
    /\ Password (setDefaults c) = Password c
    /\ Name (setDefaults c) = Name c
    /\ Port (setDefaults c) = Port c
    /\ TranslateErrors (setDefaults c) = TranslateErrors c
    /\ IgnoreRecordNotFoundError (setDefaults c) = IgnoreRecordNotFoundError c.
Proof.
  intros c. split.
  - rewrite (setDefaults_fields (setDefaults c)), (setDefaults_fields c).
    cbn [Host User Password Name Port SSLMode Timezone MaxIdleConns MaxOpenConns
         ConnMaxLifetime ConnMaxIdleTime TranslateErrors LogLevel SlowThreshold
         IgnoreRecordNotFoundError].
    f_equal.
    + destruct (String.eqb (SSLMode c) "") eqn:E; [reflexivity|now rewrite E].
    + destruct (String.eqb (Timezone c) "") eqn:E; [reflexivity|now rewrite E].
    + destruct (MaxIdleConns c <=? 0)%Z eqn:E; [reflexivity|now rewrite E].
    + destruct (MaxOpenConns c <=? 0)%Z eqn:E; [reflexivity|now rewrite E].
    + destruct (ConnMaxLifetime c <=? 0)%Z eqn:E; [reflexivity|now rewrite E].
    + destruct (ConnMaxIdleTime c <=? 0)%Z eqn:E; [reflexivity|now rewrite E].
    + destruct (LogLevel c =? 0)%Z eqn:E; [reflexivity|now rewrite E].
    + destruct (SlowThreshold c <=? 0)%Z eqn:E; [reflexivity|now rewrite E].
  - rewrite (setDefaults_fields c).
    cbn [Host User Password Name Port SSLMode Timezone MaxIdleConns MaxOpenConns
         ConnMaxLifetime ConnMaxIdleTime TranslateErrors LogLevel SlowThreshold
         IgnoreRecordNotFoundError].
    repeat split.
    + intros Hset. apply String.eqb_neq in Hset. now rewrite Hset.
    + intros Hset. apply String.eqb_neq in Hset. now rewrite Hset.
    + intros Hset. apply Z.leb_gt in Hset. now rewrite Hset.
    + intros Hset. apply Z.leb_gt in Hset. now rewrite Hset.
    + intros Hset. apply Z.leb_gt in Hset. now rewrite Hset.
    + intros Hset. apply Z.leb_gt in Hset. now rewrite Hset.
    + intros Hset. assert (E : (LogLevel c =? 0)%Z = false) by (apply Z.eqb_neq; lia).
      now rewrite E.
    + intros Hset. apply Z.leb_gt in Hset. now rewrite Hset.
Qed.

End SetDefaultsProperties.

(** * The properties at concrete inputs *)

Section Witnesses.
Existing Instance scenario_runtime.

Lemma commit_once_on_success_witness :
  let store := scenario_store false false false in
  let w := [CExec tx1 "INSERT INTO users"; CExec tx1 "INSERT INTO profiles"] in
  DB_Error (Begin_result store [] Background conn) = None
  /\ create_user_and_profile store tx1 [CBegin Background conn] = (Return None, w)
  /\ WithTransaction store (Some conn) (create_user_and_profile store) []
     = (Return None, CBegin Background conn :: w ++ [CCommit tx1])
  /\ count is_commit (CBegin Background conn :: w ++ [CCommit tx1]) = 1
  /\ count is_rollback (CBegin Background conn :: w ++ [CCommit tx1]) = 0.
Proof.
  intros store w.
  destruct (commit_once_on_success store Background conn (create_user_and_profile store)
              [] w eq_refl eq_refl) as (_ & Hplain & Hcommit & Hrollback).
  split; [reflexivity|]. split; [reflexivity|].
  split; [exact (Hplain eq_refl)|]. split; [exact Hcommit|exact Hrollback].
Defined.

Lemma rollback_once_on_failure_witness :
  let store := scenario_store false false true in
  let w := [CExec tx1 "INSERT INTO users"; CExec tx1 "INSERT INTO profiles"] in
  let err := errorString "second insert failed" in
  DB_Error (Begin_result store [] Background conn) = None
  /\ create_user_and_profile store tx1 [CBegin Background conn] = (Return (Some err), w)
  /\ WithTransaction store (Some conn) (create_user_and_profile store) []
     = (Return (Some (wrapError "transaction failed: second insert failed" err)),
        CBegin Background conn :: w ++ [CRollback tx1])
  /\ count is_rollback (CBegin Background conn :: w ++ [CRollback tx1]) = 1
  /\ count is_commit (CBegin Background conn :: w ++ [CRollback tx1]) = 0.
Proof.
  intros store w err.
  destruct (rollback_once_on_failure store Background conn (create_user_and_profile store)
              [] w err eq_refl eq_refl) as (_ & Hplain & Hrollback & Hcommit & _).
  split; [reflexivity|]. split; [reflexivity|].
  split; [exact (Hplain eq_refl)|]. split; [exact Hrollback|exact Hcommit].
Defined.

Lemma rollback_then_repanic_witness :
  let store := scenario_store false false false in
  let w := [CExec tx1 "INSERT INTO users"] in
  DB_Error (Begin_result store [] Background conn) = None
  /\ create_user_then_panic store tx1 [CBegin Background conn] = (Panic (string_any "boom"), w)
  /\ WithTransactionContext store Background (Some conn) (create_user_then_panic store) []
     = (Panic (string_any "boom"), CBegin Background conn :: w ++ [CRollback tx1]).
Proof.
  intros store w.
  split; [reflexivity|]. split; [reflexivity|].
  exact (rollback_then_repanic store Background conn (create_user_then_panic store)
           [] w (string_any "boom") eq_refl eq_refl).
Defined.

Lemma both_failures_reported_witness :
  let store := scenario_store false true true in
  let w := [CExec tx1 "INSERT INTO users"; CExec tx1 "INSERT INTO profiles"] in
  let err := errorString "second insert failed" in
  let rollbackErr := errorString "connection lost" in
  (DB_Error (Begin_result store [] Background conn) = None
   /\ create_user_and_profile store tx1 [CBegin Background conn] = (Return (Some err), w)
   /\ DB_Error (Rollback_result store ([CBegin Background conn] ++ w) tx1) = Some rollbackErr
   /\ exists e,
        WithTransactionContext store Background (Some conn) (create_user_and_profile store) []
        = (Return (Some e), CBegin Background conn :: w ++ [CRollback tx1])
        /\ Contains (Error e) "second insert failed"
        /\ Contains (Error e) "connection lost"
        /\ Unwrap e = Some err)
  /\
  (in_transaction tx1 = true
   /\ DB_Error (SavePoint_result store [] tx1 (savepoint_name Background)) = None
   /\ create_user_and_profile store tx1 [CSavePoint tx1 (savepoint_name Background)]
      = (Return (Some err), w)
   /\ DB_Error (RollbackTo_result store ([CSavePoint tx1 (savepoint_name Background)] ++ w)
                  tx1 (savepoint_name Background)) = Some rollbackErr
   /\ exists e,
        WithNestedTransactionContext store Background (Some tx1)
          (create_user_and_profile store) []
        = (Return (Some e),
           CSavePoint tx1 (savepoint_name Background)
             :: w ++ [CRollbackTo tx1 (savepoint_name Background)])
        /\ Contains (Error e) "second insert failed"
        /\ Contains (Error e) "connection lost"
        /\ Unwrap e = Some err).
Proof.
  intros store w err rollbackErr.
  destruct (both_failures_reported store Background conn (create_user_and_profile store)
              [] w err rollbackErr) as [Hfresh _].
  destruct (both_failures_reported store Background tx1 (create_user_and_profile store)
              [] w err rollbackErr) as [_ Hnested].
  split.
  - split; [reflexivity|]. split; [reflexivity|]. split; [reflexivity|].
    exact (Hfresh eq_refl eq_refl eq_refl).
  - split; [reflexivity|]. split; [reflexivity|]. split; [reflexivity|].
    split; [reflexivity|]. exact (Hnested eq_refl eq_refl eq_refl eq_refl).
Defined.

Lemma nested_uses_savepoint_witness :
  let store := scenario_store false false true in
  let name := "sp_%!d(<nil>)" in
  let w := [CExec tx1 "INSERT INTO users"; CExec tx1 "INSERT INTO profiles"] in
  let err := errorString "second insert failed" in
  in_transaction tx1 = true
  /\ DB_Error (SavePoint_result store [] tx1 name) = None
  /\ create_user_and_profile store tx1 [CSavePoint tx1 name] = (Return (Some err), w)
  /\ WithNestedTransaction store (Some tx1) (create_user_and_profile store) []
     = (Return (Some (wrapError "nested transaction failed: second insert failed" err)),
        CSavePoint tx1 name :: w ++ [CRollbackTo tx1 name]).
Proof.
  intros store name w err.
  destruct (nested_uses_savepoint store Background tx1 (create_user_and_profile store)
              [] w (Return (Some err)) eq_refl eq_refl)
    as (o' & calls & _ & Hplain & _ & _ & _ & _ & Hcalls & Ho').
  split; [reflexivity|]. split; [reflexivity|]. split; [reflexivity|].
  rewrite (Hplain eq_refl), Hcalls, Ho'. reflexivity.
Defined.

Lemma nested_without_transaction_delegates_witness :
  let store := scenario_store false false false in
  in_transaction conn = false
  /\ WithNestedTransaction store (Some conn) (create_user_and_profile store) []
     = WithTransaction store (Some conn) (create_user_and_profile store) [].
Proof.
  intros store. split; [reflexivity|].
  exact (proj1 (proj2 (nested_without_transaction_delegates store Background conn
                         (create_user_and_profile store) [] eq_refl))).
Defined.

End Witnesses.

Lemma setDefaults_idempotent_and_conservative_witness :
  SSLMode production_config <> ""
  /\ (0 < MaxIdleConns production_config)%Z
  /\ (0 < LogLevel production_config)%Z
  /\ SSLMode (setDefaults production_config) = "require"
  /\ MaxIdleConns (setDefaults production_config) = 25%Z
  /\ LogLevel (setDefaults production_config) = logger.Warn
  /\ setDefaults (setDefaults production_config) = setDefaults production_config.
Proof.
  destruct (setDefaults_idempotent_and_conservative production_config)
    as (Hidem & Hssl & _ & Hidle & _ & _ & _ & Hlevel & _).
  assert (Hne : SSLMode production_config <> "") by discriminate.
  assert (Hpos : (0 < MaxIdleConns production_config)%Z) by reflexivity.
  assert (Hlev : (0 < LogLevel production_config)%Z) by reflexivity.
  split; [exact Hne|]. split; [exact Hpos|]. split; [exact Hlev|].
  split; [exact (Hssl Hne)|]. split; [exact (Hidle Hpos)|].
  split; [exact (Hlevel Hlev)|exact Hidem].
Defined.

(** * Further properties of the JSONB accessors *)

Section JSONBAccessorProperties.
Context `{GoRuntime}.

Lemma Get_Some (g : gmap string any) (key : string) :
  Get (Some g) key = match g !! key with Some v => (v, true) | None => (nil_any, false) end.
Proof. reflexivity. Qed.

Lemma Has_Some (g : gmap string any) (key : string) :
  Has (Some g) key = bool_decide (is_Some (g !! key)).
Proof.
  unfold Has, map_index. destruct (g !! key) as [v|]; reflexivity.
Qed.

Lemma Has_true (j : JSONB) (key : string) :
  Has j key = true <-> exists g v, j = Some g /\ g !! key = Some v.
Proof.
  destruct j as [g|]; cbn.
  - unfold map_index. destruct (g !! key) as [v|] eqn:E; cbn; split.
    + eauto.
    + reflexivity.
    + discriminate.
    + intros (g' & v & [= <-] & Hv). congruence.
  - split; [discriminate|]. intros (g & v & Hj & _). discriminate.
Qed.

Lemma Has_is_Get (j : JSONB) (key : string) : Has j key = snd (Get j key).
Proof. destruct j as [g|]; reflexivity. Qed.

(** X1: JSONB, [Set] then read: on a non-nil map [Set] returns normally, the
    key then reads back the value just stored, the map is no longer empty,
    and every other key reads as before. *)
Theorem Set_then_Get (g : gmap string any) (key : string) (value : any) :
  exists j' : JSONB,
    Set_ (Some g) key value = Return j'
    /\ Get j' key = (value, true)
    /\ Has j' key = true
    /\ IsEmpty j' = false
    /\ forall k, k <> key -> Get j' k = Get (Some g) k /\ Has j' k = Has (Some g) k.
Proof.
  exists (Some (<[key := value]> g)). split; [reflexivity|].
  assert (Hget : Get (Some (<[key := value]> g)) key = (value, true)).
  { rewrite Get_Some, lookup_insert_eq. reflexivity. }
  split; [exact Hget|]. split; [rewrite Has_is_Get, Hget; reflexivity|]. split.
  - unfold IsEmpty, map_len. apply Z.eqb_neq.
    assert (size (<[key := value]> g) <> 0).
    { apply map_size_ne_0_lookup_2 with key. rewrite lookup_insert_eq. eauto. }
    lia.
  - intros k Hk.
    assert (Hk' : Get (Some (<[key := value]> g)) k = Get (Some g) k).
    { rewrite !Get_Some, lookup_insert_ne by congruence. reflexivity. }
    split; [exact Hk'|]. rewrite !Has_is_Get, Hk'. reflexivity.
Qed.

(** X2: JSONB, [Delete]: afterwards the key is absent, every other key reads
    as before, and deleting a key that is absent leaves the map as it was
    (also the nil map). *)
Theorem Delete_removes_only_the_key (j : JSONB) (key : string) :
  Has (Delete j key) key = false
  /\ Get (Delete j key) key = (nil_any, false)
  /\ (forall k, k <> key -> Get (Delete j key) k = Get j k)
  /\ (Has j key = false -> Delete j key = j).
Proof.
  destruct j as [g|]; cbn [Delete map_delete].
  - assert (Hget : Get (Some (delete key g)) key = (nil_any, false)).
    { rewrite Get_Some, lookup_delete_eq. reflexivity. }
    split; [rewrite Has_is_Get, Hget; reflexivity|]. split; [exact Hget|]. split.
    + intros k Hk. rewrite !Get_Some, lookup_delete_ne by congruence. reflexivity.
    + rewrite Has_Some. intros Hno. apply bool_decide_eq_false in Hno.
      f_equal. apply delete_id. destruct (g !! key); [exfalso; eauto|reflexivity].
  - repeat split.
Qed.

(** JSONB, [Set] then [Delete]: storing a key that was absent and deleting
    it again gives back the map as it was. *)
Theorem Set_then_Delete_restores (g : gmap string any) (key : string) (value : any) :
  Has (Some g) key = false ->
  exists j' : JSONB, Set_ (Some g) key value = Return j' /\ Delete j' key = Some g.
Proof.
  rewrite Has_Some. intros Hno. apply bool_decide_eq_false in Hno.
  exists (Some (<[key := value]> g)). split; [reflexivity|].
  cbn [Delete map_delete]. f_equal. apply delete_insert_id.
  destruct (g !! key); [exfalso; eauto|reflexivity].
Qed.

Lemma foldl_insert_list_to_map (l : list (string * any)) :
  NoDup (l.*1) ->
  foldl (fun (clone : gmap string any) kv => <[fst kv := snd kv]> clone) ∅ l = list_to_map l.
Proof.
  induction l as [|[k v] l IH] using rev_ind; [reflexivity|].
  rewrite fmap_app, NoDup_app. intros (Hl & Hfresh & _).
  rewrite foldl_snoc, IH by exact Hl. cbn [fst snd].
  rewrite list_to_map_snoc; [reflexivity|].
  intros Hin. apply (Hfresh k Hin). cbn. left.
Qed.

(** X3: JSONB, [Clone]: the copy holds exactly the entries of the receiver,
    and the copy of the nil map is nil. *)
Theorem Clone_has_the_same_entries (j : JSONB) : Clone j = j.
Proof.
  destruct j as [g|]; [|reflexivity]. unfold Clone. f_equal.
  rewrite foldl_insert_list_to_map by apply NoDup_fst_map_to_list.
  apply list_to_map_to_list.
Qed.

Lemma foldl_append_fst (l : list (string * any)) (acc : list string) :
  foldl (fun keys kv => keys ++ [fst kv]) acc l = acc ++ l.*1.
Proof.
  revert acc. induction l as [|kv l IH]; intros acc; cbn.
  - now rewrite app_nil_r.
  - rewrite IH, <- app_assoc. reflexivity.
Qed.

(** X4: JSONB, [Keys]: the nil slice exactly for the nil map; otherwise every
    key of the map once, and nothing else, so as many keys as [len] counts. *)
Theorem Keys_lists_each_key_once (j : JSONB) :
  match Keys j with
  | None => j = None
  | Some keys =>
      j <> None
      /\ NoDup keys
      /\ (forall k, k ∈ keys <-> Has j k = true)
      /\ Z.of_nat (length keys) = map_len j
  end.
Proof.
  destruct j as [g|]; [|reflexivity]. unfold Keys.
  rewrite foldl_append_fst. cbn [app]. split; [discriminate|]. split.
  - apply NoDup_fst_map_to_list.
  - split.
    + intros k. rewrite Has_Some, bool_decide_eq_true, list_elem_of_fmap. split.
      * intros ([k' v] & -> & Hin). apply elem_of_map_to_list in Hin. cbn. eauto.
      * intros [v Hv]. exists (k, v). split; [reflexivity|].
        apply elem_of_map_to_list. exact Hv.
    + cbn [map_len]. rewrite length_fmap, length_map_to_list. reflexivity.
Qed.

(** JSONB, [IsEmpty]: true exactly when no key is present, for the nil map
    and for the empty map alike. *)
Theorem IsEmpty_iff_no_key (j : JSONB) :
  IsEmpty j = true <-> forall k, Has j k = false.
Proof.
  unfold IsEmpty. rewrite Z.eqb_eq. destruct j as [g|]; cbn [map_len].
  - split.
    + intros Hsize k. rewrite Has_Some. apply bool_decide_eq_false_2. intros Hsome.
      apply map_size_ne_0_lookup_2 in Hsome. lia.
    + intros Hnone. destruct (decide (size g = 0)) as [->|Hne]; [reflexivity|].
      apply map_size_ne_0_lookup_1 in Hne as [k Hk].
      specialize (Hnone k). rewrite Has_Some in Hnone.
      apply bool_decide_eq_false in Hnone. contradiction.
  - split; [reflexivity|reflexivity].
Qed.

End JSONBAccessorProperties.

Section JSONBTypedGetters.
Context `{GoRuntime}.
Variable float64_to_int : float64 -> Z.
Variable Number_Int64 : string -> option Z.

(** X5: JSONB, a key that is absent: every getter reports it as not found and
    gives the zero value of its type, on the nil map and on any other. *)
Theorem getters_on_missing_key (j : JSONB) (key : string) :
  Has j key = false ->
  Get j key = (nil_any, false)
  /\ GetString j key = ("", false)
  /\ GetInt float64_to_int Number_Int64 j key = (0%Z, false)
  /\ GetBool j key = (false, false).
Proof.
  intros Hno. rewrite Has_is_Get in Hno.
  assert (Hget : Get j key = (nil_any, false)).
  { destruct j as [g|]; [|reflexivity]. rewrite Get_Some in *.
    destruct (g !! key); [discriminate|reflexivity]. }
  unfold GetString, GetInt, GetBool. rewrite Hget. repeat split.
Qed.


End JSONBTypedGetters.

Section JSONBColumnProperties.
Context `{GoRuntime}.
Variable json_Marshal : gmap string any -> string + error.
Variable json_Unmarshal : string -> JSONB + error.

(** X7: JSONB, [Value] and [String]: the nil map is stored as NULL and printed
    as null; when the encoder succeeds both give its bytes; when it fails
    [Value] returns an error wrapping the encoder's and no data, while
    [String] falls back to the text of the empty object. *)
Theorem Value_and_String_agree (j : JSONB) :
  match JSONB_Value json_Marshal j with
  | (None, None) => j = None /\ String_ json_Marshal j = "null"
  | (Some data, None) => j <> None /\ String_ json_Marshal j = data
  | (None, Some e) =>
      String_ json_Marshal j = "{}"
      /\ exists g err, j = Some g /\ json_Marshal g = inr err /\ Unwrap e = Some err
         /\ Error e = "failed to marshal JSONB: " +:+ Error err
  | (Some _, Some _) => False
  end.
Proof.
  destruct j as [g|]; [|split; reflexivity]. unfold JSONB_Value, String_.
  destruct (json_Marshal g) as [data|err] eqn:Hm.
  - split; [discriminate|reflexivity].
  - rewrite Errorf_wrap. split; [reflexivity|]. exists g, err. repeat split. exact Hm.
Qed.

(** X9: JSONB, NULL against empty input: scanning NULL leaves the nil map, on
    which a later [Set] is dropped; scanning an empty byte slice or an
    empty string gives an empty map without consulting the decoder, on
    which a later [Set] takes effect. *)
Theorem Scan_null_and_empty (j : JSONB) (key : string) (value : any) :
  (exists j0, JSONB_Scan json_Unmarshal j scanned_nil = (j0, None)
     /\ IsEmpty j0 = true
     /\ exists j1, Set_ j0 key value = Return j1 /\ Has j1 key = false)
  /\ (forall empty, empty = scanned_bytes "" \/ empty = scanned_string "" ->
      exists j0, JSONB_Scan json_Unmarshal j empty = (j0, None)
        /\ IsEmpty j0 = true
        /\ exists j1, Set_ j0 key value = Return j1 /\ Get j1 key = (value, true)).
Proof.
  split.
  - exists None. repeat split. exists None. split; reflexivity.
  - intros empty [-> | ->]; exists (Some ∅); (split; [reflexivity|]);
      (split; [reflexivity|]); exists (Some (<[key := value]> ∅));
      (split; [reflexivity|]); rewrite Get_Some, lookup_insert_eq; reflexivity.
Qed.

(** JSONB, what [Scan] rejects: a value that is neither nil, a byte slice
    nor a string is refused with "cannot scan T into JSONB"; bytes the
    decoder refuses give an error wrapping the decoder's; a byte slice and
    a string with the same bytes are treated alike. *)
Theorem Scan_rejections (j : JSONB) :
  (forall T, JSONB_Scan json_Unmarshal j (scanned_other T)
             = (j, Some (errorString ("cannot scan " +:+ T +:+ " into JSONB"))))
  /\ (forall data err, data <> "" -> json_Unmarshal data = inr err ->
        JSONB_Scan json_Unmarshal j (scanned_bytes data)
        = (j, Some (wrapError ("failed to unmarshal JSONB: " +:+ Error err) err)))
  /\ (forall data, JSONB_Scan json_Unmarshal j (scanned_string data)
                   = JSONB_Scan json_Unmarshal j (scanned_bytes data)).
Proof.
  repeat split.
  intros data err Hne Herr. unfold JSONB_Scan.
  destruct data as [|a data]; [congruence|]. cbn [String.length Nat.eqb].
  rewrite Herr, Errorf_wrap. reflexivity.
Qed.

(** X10: JSONB, [Value] then [Scan]: NULL comes back as the nil map; and when
    the encoder turns the map into bytes that the decoder turns back into
    that map, scanning what [Value] stored restores the map, whatever the
    receiver held before.  (The encoder never yields zero bytes.) *)
Theorem Scan_after_Value (g : gmap string any) (data : string) (before : JSONB) :
  json_Marshal g = inl data ->
  data <> "" ->
  json_Unmarshal data = inl (Some g) ->
  JSONB_Value json_Marshal (Some g) = (Some data, None)
  /\ JSONB_Scan json_Unmarshal before (scanned_bytes data) = (Some g, None)
  /\ JSONB_Value json_Marshal None = (None, None)
  /\ JSONB_Scan json_Unmarshal before scanned_nil = (None, None).
Proof.
  intros Hm Hne Hu. unfold JSONB_Value, JSONB_Scan. rewrite Hm.
  destruct data as [|a data]; [congruence|]. cbn [String.length Nat.eqb].
  rewrite Hu. repeat split.
Qed.

End JSONBColumnProperties.

Section ScanProperties.
Context `{GoRuntime}.
Variable json_Unmarshal : string -> JSONB + error.
Variable json_Unmarshal_array : string -> option (list any) + error.

(** X8: JSONB and JSONBArray, [Scan] is all or nothing: when it returns an
    error the receiver keeps what it held; when it succeeds what the receiver
    holds afterwards depends on the scanned value alone, never on what it
    held before.  For the array, NULL gives the nil slice and empty input an
    empty, non-nil slice. *)
Theorem Scan_is_all_or_nothing (j : JSONB) (a : option (list any)) (value : scanned) :
  match snd (JSONB_Scan json_Unmarshal j value) with
  | Some _ => fst (JSONB_Scan json_Unmarshal j value) = j
  | None => forall j' : JSONB,
      JSONB_Scan json_Unmarshal j' value = JSONB_Scan json_Unmarshal j value
  end
  /\ match snd (JSONBArray_Scan json_Unmarshal_array a value) with
     | Some _ => fst (JSONBArray_Scan json_Unmarshal_array a value) = a
     | None => forall a' : option (list any),
         JSONBArray_Scan json_Unmarshal_array a' value
         = JSONBArray_Scan json_Unmarshal_array a value
     end
  /\ JSONBArray_Scan json_Unmarshal_array a scanned_nil = (None, None)
  /\ JSONBArray_Scan json_Unmarshal_array a (scanned_bytes "") = (Some [], None)
  /\ JSONBArray_Scan json_Unmarshal_array a (scanned_string "") = (Some [], None).
Proof.
  split; [|split; [|repeat split]].
  - destruct value as [|data|data|T]; cbn; try reflexivity;
      (destruct (String.length data =? 0)%nat; cbn; [reflexivity|]);
      destruct (json_Unmarshal data); cbn; reflexivity.
  - destruct value as [|data|data|T]; cbn; try reflexivity;
      (destruct (String.length data =? 0)%nat; cbn; [reflexivity|]);
      destruct (json_Unmarshal_array data); cbn; reflexivity.
Qed.

End ScanProperties.

(** * Further properties of the connection configuration *)

Section GormConfigProperties.

(** X11: GormConfig, [validate]: a configuration is accepted exactly when
    [Host], [User], [Name] and [Port] are all non-empty ([Password] may be
    empty); otherwise the error names the first of them, in that order, that
    is empty. *)
Theorem validate_requires_four_fields (c : GormConfig) :
  (validate c = None <-> Host c <> "" /\ User c <> "" /\ Name c <> "" /\ Port c <> "")
  /\ (Host c = "" -> validate c = Some (errorString "host is required"))
  /\ (Host c <> "" -> User c = "" -> validate c = Some (errorString "user is required"))
  /\ (Host c <> "" -> User c <> "" -> Name c = "" ->
      validate c = Some (errorString "database name is required"))
  /\ (Host c <> "" -> User c <> "" -> Name c <> "" -> Port c = "" ->
      validate c = Some (errorString "port is required")).
Proof.
  unfold validate.
  destruct (String.eqb (Host c) "") eqn:Eh; [apply String.eqb_eq in Eh|apply String.eqb_neq in Eh];
  (destruct (String.eqb (User c) "") eqn:Eu;
     [apply String.eqb_eq in Eu|apply String.eqb_neq in Eu]);
  (destruct (String.eqb (Name c) "") eqn:En;
     [apply String.eqb_eq in En|apply String.eqb_neq in En]);
  (destruct (String.eqb (Port c) "") eqn:Ep;
     [apply String.eqb_eq in Ep|apply String.eqb_neq in Ep]);
  repeat split; try congruence; try tauto; try discriminate.
Qed.

(** GormConfig, defaults and validation: [setDefaults] never turns a
    rejected configuration into an accepted one or the reverse; [validate]
    gives the same answer before and after. *)
Theorem validate_after_setDefaults (c : GormConfig) :
  validate (setDefaults c) = validate c.
Proof. rewrite setDefaults_fields. reflexivity. Qed.

Lemma default_string_idempotent (s d : string) :
  d <> "" ->
  (if String.eqb (if String.eqb s "" then d else s) "" then d
   else if String.eqb s "" then d else s)
  = if String.eqb s "" then d else s.
Proof.
  intros Hd. destruct (String.eqb s "") eqn:E.
  - apply String.eqb_neq in Hd. now rewrite Hd.
  - now rewrite E.
Qed.

(** X12: GormConfig, the two places that default the SSL mode and the time
    zone agree: the connection string of a configuration is the connection
    string of the configuration after [setDefaults], and it carries
    sslmode=disable and TimeZone=UTC when these fields are empty. *)
Theorem dsn_agrees_with_setDefaults (c : GormConfig) :
  dsn (setDefaults c) = dsn c
  /\ (SSLMode c = "" -> Timezone c = "" ->
      dsn c = "host=" +:+ Host c +:+ " user=" +:+ User c +:+ " password=" +:+ Password c +:+
              " dbname=" +:+ Name c +:+ " port=" +:+ Port c +:+
              " sslmode=disable TimeZone=UTC").
Proof.
  split.
  - rewrite setDefaults_fields. unfold dsn.
    cbn [Host User Password Name Port SSLMode Timezone].
    rewrite !default_string_idempotent by discriminate. reflexivity.
  - intros Hs Ht. unfold dsn. rewrite Hs, Ht. reflexivity.
Qed.

(** what [setDefaults] establishes *)
Lemma setDefaults_establishes (c : GormConfig) :
  SSLMode (setDefaults c) <> ""
  /\ Timezone (setDefaults c) <> ""
  /\ (0 < MaxIdleConns (setDefaults c))%Z
  /\ (0 < MaxOpenConns (setDefaults c))%Z
  /\ (0 < ConnMaxLifetime (setDefaults c))%Z
  /\ (0 < ConnMaxIdleTime (setDefaults c))%Z
  /\ LogLevel (setDefaults c) <> 0%Z
  /\ (0 < SlowThreshold (setDefaults c))%Z.
Proof.
  rewrite setDefaults_fields.
  cbn [SSLMode Timezone MaxIdleConns MaxOpenConns ConnMaxLifetime ConnMaxIdleTime
       LogLevel SlowThreshold].
  repeat split.
  - destruct (String.eqb (SSLMode c) "") eqn:E; [discriminate|now apply String.eqb_neq].
  - destruct (String.eqb (Timezone c) "") eqn:E; [discriminate|now apply String.eqb_neq].
  - destruct (MaxIdleConns c <=? 0)%Z eqn:E; [reflexivity|now apply Z.leb_gt].
  - destruct (MaxOpenConns c <=? 0)%Z eqn:E; [reflexivity|now apply Z.leb_gt].
  - destruct (ConnMaxLifetime c <=? 0)%Z eqn:E; [reflexivity|now apply Z.leb_gt].
  - destruct (ConnMaxIdleTime c <=? 0)%Z eqn:E; [reflexivity|now apply Z.leb_gt].
  - destruct (LogLevel c =? 0)%Z eqn:E; [discriminate|now apply Z.eqb_neq].
  - destruct (SlowThreshold c <=? 0)%Z eqn:E; [reflexivity|now apply Z.leb_gt].
Qed.

(** a positive pool setting survives [setDefaults] *)
Lemma setDefaults_keeps_positive_pool_settings (c : GormConfig) :
  (0 < MaxIdleConns c -> MaxIdleConns (setDefaults c) = MaxIdleConns c)%Z
  /\ (0 < MaxOpenConns c -> MaxOpenConns (setDefaults c) = MaxOpenConns c)%Z
  /\ (0 < ConnMaxLifetime c -> ConnMaxLifetime (setDefaults c) = ConnMaxLifetime c)%Z
  /\ (0 < ConnMaxIdleTime c -> ConnMaxIdleTime (setDefaults c) = ConnMaxIdleTime c)%Z.
Proof.
  rewrite setDefaults_fields.
  cbn [MaxIdleConns MaxOpenConns ConnMaxLifetime ConnMaxIdleTime].
  repeat split; intros Hset; apply Z.leb_gt in Hset; now rewrite Hset.
Qed.

End GormConfigProperties.

Section OpenGormProperties.
Context `{GoRuntime}.
Variable server : Postgres.

Ltac run_OpenGorm c models t0 :=
  unfold OpenGorm; cbv zeta;
  destruct (validate c) as [invalid|] eqn:Hvalid;
  [|destruct (Open_result server t0 (dsn (setDefaults c)) (TranslateErrors (setDefaults c))
               (LogLevel (setDefaults c))) as [db|openErr] eqn:Hopen;
    [destruct (DB_result server _ db) as [pool|dbErr] eqn:Hpool;
     [destruct (Ping_result server _ pool _) as [pingErr|] eqn:Hping;
      [|destruct (0 <? length models)%nat eqn:Hmodels;
        [destruct (AutoMigrate_result server _ db models) as [migrateErr|] eqn:Hmigrate|]]|]|]].

Ltac find_call := cbn [In app]; repeat first [left; reflexivity | right].

(** X13: OpenGorm, an invalid configuration: when [Host], [User], [Name] or
    [Port] is empty, [OpenGorm] returns "invalid configuration: ..." around
    the validation error and makes no call at all; otherwise its first call
    opens the connection with the connection string of the configuration. *)
Theorem OpenGorm_validates_before_any_call (c : GormConfig) (models : list any)
    (t0 : list PoolCall) :
  match validate c with
  | Some err =>
      OpenGorm server c models t0
      = ((None, Some (wrapError ("invalid configuration: " +:+ Error err) err)), [])
  | None =>
      exists rest,
        snd (OpenGorm server c models t0)
        = gorm_Open (dsn c) (TranslateErrors c)
            (if (LogLevel c =? 0)%Z then logger.Info else LogLevel c) :: rest
  end.
Proof.
  assert (Hdsn : dsn (setDefaults c) = dsn c).
  { rewrite setDefaults_fields. unfold dsn.
    cbn [Host User Password Name Port SSLMode Timezone].
    rewrite !default_string_idempotent by discriminate. reflexivity. }
  assert (Htranslate : TranslateErrors (setDefaults c) = TranslateErrors c).
  { rewrite setDefaults_fields. reflexivity. }
  assert (Hlevel : LogLevel (setDefaults c)
                   = if (LogLevel c =? 0)%Z then logger.Info else LogLevel c).
  { rewrite setDefaults_fields. reflexivity. }
  run_OpenGorm c models t0; rewrite ?Errorf_wrap; try reflexivity;
    rewrite Hdsn, Htranslate, Hlevel; cbn [snd app]; eauto.
Qed.

(** X14: OpenGorm, no leaked pool: [OpenGorm] returns a manager or an error,
    never both and never neither; when it fails after it got hold of the
    pool (the ping or the migration failed) its last call closes that pool,
    and that is the only close; when it succeeds, or fails earlier, it
    closes nothing. *)
Theorem OpenGorm_closes_the_pool_when_it_fails (c : GormConfig) (models : list any)
    (t0 : list PoolCall) :
  let '((dm, err), calls) := OpenGorm server c models t0 in
  (dm = None <-> err <> None)
  /\ length (List.filter is_Close calls)
     = match err with
       | Some _ => if existsb is_Ping calls then 1 else 0
       | None => 0
       end
  /\ (err <> None -> existsb is_Ping calls = true ->
      exists pool, last calls = Some (sqlDB_Close pool)
                   /\ In (PingContext pool (Some (10 * time.Second)%Z)) calls)
  /\ (err = None ->
      exists db pool, dm = Some (mkDBManager (Some db) (Some pool))
                      /\ In (PingContext pool (Some (10 * time.Second)%Z)) calls).
Proof.
  run_OpenGorm c models t0; cbn -[Z.mul];
    (split; [split; [try discriminate; try congruence|try congruence; try reflexivity]|]);
    (split; [reflexivity|]);
    (split;
       [intros Hne Hping'; first [discriminate Hping' | congruence
                                 | eexists; split; [reflexivity|find_call]]
       |intros Herr; first [discriminate Herr
                           | eexists _, _; split; [reflexivity|find_call]]]).
Qed.

(** X15: OpenGorm, pool settings: every value [OpenGorm] hands to a pool setter
    is positive, and it is the configured value whenever that is positive. *)
Theorem OpenGorm_pool_settings_are_positive (c : GormConfig) (models : list any)
    (t0 : list PoolCall) :
  forall call, In call (snd (OpenGorm server c models t0)) ->
    match call with
    | SetMaxIdleConns _ n => (0 < n)%Z /\ (0 < MaxIdleConns c -> n = MaxIdleConns c)%Z
    | SetMaxOpenConns _ n => (0 < n)%Z /\ (0 < MaxOpenConns c -> n = MaxOpenConns c)%Z
    | SetConnMaxLifetime _ d => (0 < d)%Z /\ (0 < ConnMaxLifetime c -> d = ConnMaxLifetime c)%Z
    | SetConnMaxIdleTime _ d => (0 < d)%Z /\ (0 < ConnMaxIdleTime c -> d = ConnMaxIdleTime c)%Z
    | _ => True
    end.
Proof.
  destruct (setDefaults_establishes c) as (_ & _ & Hidle & Hopen' & Hlife & Hidletime & _).
  destruct (setDefaults_keeps_positive_pool_settings c)
    as (Kidle & Kopen & Klife & Kidletime).
  intros call.
  run_OpenGorm c models t0; cbn [snd app In]; intros Hin;
    repeat (destruct Hin as [<-|Hin]; [solve [exact I | split; assumption]|]);
    destruct Hin.
Qed.

(** X16: OpenGorm, fields without effect: [SlowThreshold] and
    [IgnoreRecordNotFoundError] change neither the result of [OpenGorm] nor
    any call it makes. *)
Theorem OpenGorm_ignores_two_fields
    (host user password name port sslmode timezone : string) (idle open : Z)
    (lifetime idletime : time.Duration) (translate : bool) (level : logger.LogLevel)
    (slow slow' : time.Duration) (ignore ignore' : bool) (models : list any)
    (t0 : list PoolCall) :
  OpenGorm server
    (mkGormConfig host user password name port sslmode timezone idle open lifetime idletime
       translate level slow ignore) models t0
  = OpenGorm server
      (mkGormConfig host user password name port sslmode timezone idle open lifetime idletime
         translate level slow' ignore') models t0.
Proof.
  unfold OpenGorm. cbv zeta. rewrite !setDefaults_fields. unfold validate, dsn.
  cbn [Host User Password Name Port SSLMode Timezone MaxIdleConns MaxOpenConns
       ConnMaxLifetime ConnMaxIdleTime TranslateErrors LogLevel].
  reflexivity.
Qed.

(** X17: OpenGorm, the manager it returns is initialised: its [Ping] reaches
    the pool that [OpenGorm] opened and returns the pool's answer (never
    "database connection not initialized"), and its [Close] closes that
    pool. *)
Theorem OpenGorm_manager_is_initialised (c : GormConfig) (models : list any)
    (t0 t : list PoolCall) (dm : DBManager) :
  fst (fst (OpenGorm server c models t0)) = Some dm ->
  exists pool,
    In (PingContext pool (Some (10 * time.Second)%Z)) (snd (OpenGorm server c models t0))
    /\ DBManager_Ping server dm t = (Ping_result server t pool None, [PingContext pool None])
    /\ DBManager_Close server dm t = (Close_result server t pool, [sqlDB_Close pool]).
Proof.
  run_OpenGorm c models t0; cbn -[Z.mul]; try discriminate;
    intros [= <-]; exists pool; (split; [find_call|]); split; reflexivity.
Qed.

End OpenGormProperties.

(** * Properties of the document store client *)

Section MongoConfigProperties.

(** MongoConfig, [validate]: a configuration is accepted exactly when
    [URI] and [DBName] are both non-empty; an empty [URI] is reported first. *)
Theorem mongo_validate_requires_URI_and_DBName (c : mongo.MongoConfig) :
  (mongo.validate c = None <-> mongo.URI c <> "" /\ mongo.DBName c <> "")
  /\ (mongo.URI c = "" -> mongo.validate c = Some (errorString "URI is required"))
  /\ (mongo.URI c <> "" -> mongo.DBName c = "" ->
      mongo.validate c = Some (errorString "database name is required")).
Proof.
  unfold mongo.validate.
  destruct (String.eqb (mongo.URI c) "") eqn:Eu;
    [apply String.eqb_eq in Eu|apply String.eqb_neq in Eu];
  (destruct (String.eqb (mongo.DBName c) "") eqn:Ed;
    [apply String.eqb_eq in Ed|apply String.eqb_neq in Ed]);
  repeat split; try congruence; try tauto; try discriminate.
Qed.

Lemma mongo_setDefaults_steps (c : mongo.MongoConfig) :
  mongo.setDefaults c =
  mongo.step (fun c => String.eqb (mongo.ReadPreference c) "")
             (fun c => mongo.set_ReadPreference c "primary")
    (mongo.step (fun c => (mongo.MaxConnecting c =? 0)%N)
                (fun c => mongo.set_MaxConnecting c 10%N)
    (mongo.step (fun c => (mongo.MaxIdleTime c <=? 0)%Z)
                (fun c => mongo.set_MaxIdleTime c (5 * time.Minute)%Z)
    (mongo.step (fun c => (mongo.MinPoolSize c =? 0)%N)
                (fun c => mongo.set_MinPoolSize c 5%N)
    (mongo.step (fun c => (mongo.MaxPoolSize c =? 0)%N)
                (fun c => mongo.set_MaxPoolSize c 100%N)
    (mongo.step (fun c => (mongo.Timeout c <=? 0)%Z)
                (fun c => mongo.set_Timeout c (10 * time.Second)%Z)
       c))))).
Proof. reflexivity. Qed.

Lemma mongo_if_constructor (b : bool) (c c' : mongo.MongoConfig) :
  (if b then c else c') =
  mongo.mkMongoConfig
    (if b then mongo.URI c else mongo.URI c')
    (if b then mongo.DBName c else mongo.DBName c')
    (if b then mongo.Timeout c else mongo.Timeout c')
    (if b then mongo.MaxPoolSize c else mongo.MaxPoolSize c')
    (if b then mongo.MinPoolSize c else mongo.MinPoolSize c')
    (if b then mongo.MaxIdleTime c else mongo.MaxIdleTime c')
    (if b then mongo.MaxConnecting c else mongo.MaxConnecting c')
    (if b then mongo.ReadPreference c else mongo.ReadPreference c')
    (if b then mongo.RetryWrites c else mongo.RetryWrites c')
    (if b then mongo.RetryReads c else mongo.RetryReads c').
Proof. destruct b, c, c'; reflexivity. Qed.

Ltac push_if_inside_mongo :=
  match goal with |- context [if ?b then ?x else ?y] =>
    match type of x with mongo.MongoConfig => rewrite (mongo_if_constructor b x y) end end;
  cbn [mongo.URI mongo.DBName mongo.Timeout mongo.MaxPoolSize mongo.MinPoolSize
       mongo.MaxIdleTime mongo.MaxConnecting mongo.ReadPreference mongo.RetryWrites
       mongo.RetryReads mongo.set_Timeout mongo.set_MaxPoolSize mongo.set_MinPoolSize
       mongo.set_MaxIdleTime mongo.set_MaxConnecting mongo.set_ReadPreference];
  rewrite ?if_same.

(** [mongo.setDefaults] field by field *)
Lemma mongo_setDefaults_fields (c : mongo.MongoConfig) :
  mongo.setDefaults c =
  mongo.mkMongoConfig (mongo.URI c) (mongo.DBName c)
    (if (mongo.Timeout c <=? 0)%Z then (10 * time.Second)%Z else mongo.Timeout c)
    (if (mongo.MaxPoolSize c =? 0)%N then 100%N else mongo.MaxPoolSize c)
    (if (mongo.MinPoolSize c =? 0)%N then 5%N else mongo.MinPoolSize c)
    (if (mongo.MaxIdleTime c <=? 0)%Z then (5 * time.Minute)%Z else mongo.MaxIdleTime c)
    (if (mongo.MaxConnecting c =? 0)%N then 10%N else mongo.MaxConnecting c)
    (if String.eqb (mongo.ReadPreference c) "" then "primary" else mongo.ReadPreference c)
    (mongo.RetryWrites c) (mongo.RetryReads c).
Proof.
  rewrite mongo_setDefaults_steps. destruct c.
  unfold mongo.step at 6; push_if_inside_mongo. unfold mongo.step at 5; push_if_inside_mongo.
  unfold mongo.step at 4; push_if_inside_mongo. unfold mongo.step at 3; push_if_inside_mongo.
  unfold mongo.step at 2; push_if_inside_mongo. unfold mongo.step at 1; push_if_inside_mongo.
  reflexivity.
Qed.

Ltac mongo_fields :=
  cbn [mongo.URI mongo.DBName mongo.Timeout mongo.MaxPoolSize mongo.MinPoolSize
       mongo.MaxIdleTime mongo.MaxConnecting mongo.ReadPreference mongo.RetryWrites
       mongo.RetryReads].

Lemma classic_known (s : string) : known_read_preference s \/ ~ known_read_preference s.
Proof.
  unfold known_read_preference.
  destruct (String.eqb s "primary") eqn:E1; [apply String.eqb_eq in E1; tauto|].
  destruct (String.eqb s "secondary") eqn:E2; [apply String.eqb_eq in E2; tauto|].
  destruct (String.eqb s "primaryPreferred") eqn:E3; [apply String.eqb_eq in E3; tauto|].
  destruct (String.eqb s "secondaryPreferred") eqn:E4; [apply String.eqb_eq in E4; tauto|].
  destruct (String.eqb s "nearest") eqn:E5; [apply String.eqb_eq in E5; tauto|].
  apply String.eqb_neq in E1, E2, E3, E4, E5. tauto.
Qed.

Lemma mongo_getReadPreference_known (c : mongo.MongoConfig) :
  known_read_preference (mongo.ReadPreference c) ->
  exists rp, mongo.getReadPreference c = inl rp.
Proof.
  unfold known_read_preference, mongo.getReadPreference.
  intros [-> | [-> | [-> | [-> | ->]]]]; cbn; eauto.
Qed.

Lemma mongo_getReadPreference_names_parts (c : mongo.MongoConfig) :
  (~ known_read_preference (mongo.ReadPreference c) ->
   mongo.getReadPreference c
   = inr (errorString ("invalid read preference: " +:+ mongo.ReadPreference c)))
  /\ (mongo.ReadPreference c = "" ->
      mongo.getReadPreference (mongo.setDefaults c) = inl mongo.Primary)
  /\ (mongo.ReadPreference c <> "" ->
      mongo.getReadPreference (mongo.setDefaults c) = mongo.getReadPreference c).
Proof.
  unfold known_read_preference. split; [|split].
  - intros Hunknown. unfold mongo.getReadPreference.
    repeat match goal with
           | |- context [String.eqb (mongo.ReadPreference c) ?s] =>
               let E := fresh "E" in
               destruct (String.eqb (mongo.ReadPreference c) s) eqn:E;
               [apply String.eqb_eq in E; exfalso; apply Hunknown; tauto|]
           end.
    reflexivity.
  - intros Hempty. rewrite mongo_setDefaults_fields. unfold mongo.getReadPreference.
    mongo_fields. rewrite Hempty. reflexivity.
  - intros Hset. rewrite mongo_setDefaults_fields. unfold mongo.getReadPreference.
    mongo_fields. apply String.eqb_neq in Hset. rewrite Hset. reflexivity.
Qed.

Lemma mongo_setDefaults_establishes (c : mongo.MongoConfig) :
  let d := mongo.setDefaults c in
  mongo.URI d = mongo.URI c
  /\ mongo.timeout d = mongo.timeout c
  /\ mongo.MaxPoolSize d <> 0%N
  /\ mongo.MinPoolSize d <> 0%N
  /\ (0 < mongo.MaxIdleTime d)%Z
  /\ mongo.MaxConnecting d <> 0%N.
Proof.
  intros d. subst d. rewrite mongo_setDefaults_fields. unfold mongo.timeout. mongo_fields.
  repeat split.
  - destruct (mongo.Timeout c <=? 0)%Z eqn:E; [reflexivity|now rewrite E].
  - destruct (mongo.MaxPoolSize c =? 0)%N eqn:E; [discriminate|now apply N.eqb_neq].
  - destruct (mongo.MinPoolSize c =? 0)%N eqn:E; [discriminate|now apply N.eqb_neq].
  - destruct (mongo.MaxIdleTime c <=? 0)%Z eqn:E; [reflexivity|now apply Z.leb_gt].
  - destruct (mongo.MaxConnecting c =? 0)%N eqn:E; [discriminate|now apply N.eqb_neq].
Qed.

(** X18: MongoConfig, [setDefaults]: applied twice it gives what it gives
    applied once; a positive timeout or idle time, a non-zero pool size or
    connecting limit and a non-empty read preference are kept; [URI],
    [DBName] and the two retry flags are kept in every case; afterwards no
    defaulted field is left at zero or empty. *)
Theorem mongo_setDefaults_idempotent_and_conservative (c : mongo.MongoConfig) :
  let d := mongo.setDefaults c in
  mongo.setDefaults d = d
  /\ ((0 < mongo.Timeout c)%Z -> mongo.Timeout d = mongo.Timeout c)
  /\ (mongo.MaxPoolSize c <> 0%N -> mongo.MaxPoolSize d = mongo.MaxPoolSize c)
  /\ (mongo.MinPoolSize c <> 0%N -> mongo.MinPoolSize d = mongo.MinPoolSize c)
  /\ ((0 < mongo.MaxIdleTime c)%Z -> mongo.MaxIdleTime d = mongo.MaxIdleTime c)
  /\ (mongo.MaxConnecting c <> 0%N -> mongo.MaxConnecting d = mongo.MaxConnecting c)
  /\ (mongo.ReadPreference c <> "" -> mongo.ReadPreference d = mongo.ReadPreference c)
  /\ mongo.URI d = mongo.URI c
  /\ mongo.DBName d = mongo.DBName c
  /\ mongo.RetryWrites d = mongo.RetryWrites c
  /\ mongo.RetryReads d = mongo.RetryReads c
  /\ (0 < mongo.Timeout d)%Z /\ mongo.MaxPoolSize d <> 0%N /\ mongo.MinPoolSize d <> 0%N
  /\ (0 < mongo.MaxIdleTime d)%Z /\ mongo.MaxConnecting d <> 0%N
  /\ mongo.ReadPreference d <> "".
Proof.
  intros d. subst d. split.
  - rewrite (mongo_setDefaults_fields (mongo.setDefaults c)), (mongo_setDefaults_fields c).
    mongo_fields. f_equal.
    + destruct (mongo.Timeout c <=? 0)%Z eqn:E; [reflexivity|now rewrite E].
    + destruct (mongo.MaxPoolSize c =? 0)%N eqn:E; [reflexivity|now rewrite E].
    + destruct (mongo.MinPoolSize c =? 0)%N eqn:E; [reflexivity|now rewrite E].
    + destruct (mongo.MaxIdleTime c <=? 0)%Z eqn:E; [reflexivity|now rewrite E].
    + destruct (mongo.MaxConnecting c =? 0)%N eqn:E; [reflexivity|now rewrite E].
    + destruct (String.eqb (mongo.ReadPreference c) "") eqn:E; [reflexivity|now rewrite E].
  - rewrite (mongo_setDefaults_fields c). mongo_fields.
    repeat split;
      try (intros Hset; apply Z.leb_gt in Hset; now rewrite Hset);
      try (intros Hset; apply N.eqb_neq in Hset; now rewrite Hset);
      try (intros Hset; apply String.eqb_neq in Hset; now rewrite Hset).
    + destruct (mongo.Timeout c <=? 0)%Z eqn:E; [reflexivity|now apply Z.leb_gt].
    + destruct (mongo.MaxPoolSize c =? 0)%N eqn:E; [discriminate|now apply N.eqb_neq].
    + destruct (mongo.MinPoolSize c =? 0)%N eqn:E; [discriminate|now apply N.eqb_neq].
    + destruct (mongo.MaxIdleTime c <=? 0)%Z eqn:E; [reflexivity|now apply Z.leb_gt].
    + destruct (mongo.MaxConnecting c =? 0)%N eqn:E; [discriminate|now apply N.eqb_neq].
    + destruct (String.eqb (mongo.ReadPreference c) "") eqn:E;
        [discriminate|now apply String.eqb_neq].
Qed.

(** X19: MongoConfig, the two places that default the timeout agree:
    [timeout] gives the [Timeout] that [setDefaults] leaves, it is always
    positive, and it is the configured timeout whenever that is positive. *)
Theorem mongo_timeout_agrees_with_setDefaults (c : mongo.MongoConfig) :
  mongo.timeout c = mongo.Timeout (mongo.setDefaults c)
  /\ mongo.timeout (mongo.setDefaults c) = mongo.timeout c
  /\ (0 < mongo.timeout c)%Z
  /\ ((0 < mongo.Timeout c)%Z -> mongo.timeout c = mongo.Timeout c).
Proof.
  rewrite mongo_setDefaults_fields. unfold mongo.timeout. mongo_fields.
  destruct (mongo.Timeout c <=? 0)%Z eqn:E.
  - repeat split. intros Hpos. apply Z.leb_le in E. lia.
  - rewrite E. apply Z.leb_gt in E. repeat split. exact E.
Qed.

(** X20: MongoConfig, [getReadPreference]: it succeeds exactly on the five
    names, spelled as they are, and otherwise returns
    "invalid read preference: " followed by the name; after [setDefaults]
    an empty name stands for primary, and a non-empty name is read as
    before. *)
Theorem mongo_getReadPreference_names (c : mongo.MongoConfig) :
  ((exists rp, mongo.getReadPreference c = inl rp)
   <-> known_read_preference (mongo.ReadPreference c))
  /\ (~ known_read_preference (mongo.ReadPreference c) ->
      mongo.getReadPreference c
      = inr (errorString ("invalid read preference: " +:+ mongo.ReadPreference c)))
  /\ (mongo.ReadPreference c = "" ->
      mongo.getReadPreference (mongo.setDefaults c) = inl mongo.Primary)
  /\ (mongo.ReadPreference c <> "" ->
      mongo.getReadPreference (mongo.setDefaults c) = mongo.getReadPreference c).
Proof.
  destruct (mongo_getReadPreference_names_parts c) as (Hunknown & Hempty & Hkept).
  split; [|auto]. split; [|apply mongo_getReadPreference_known].
  intros [rp Hrp].
  destruct (classic_known (mongo.ReadPreference c)) as [Hk|Hk]; [exact Hk|].
  rewrite (Hunknown Hk) in Hrp. discriminate.
Qed.

End MongoConfigProperties.

Section MongoClientProperties.
Context `{GoRuntime}.
Variable SessionFunc : Type.
Variable driver : mongo.Driver SessionFunc.

Ltac run_Connect cfg t0 :=
  unfold mongo.Connect; cbv zeta;
  destruct (mongo.validate cfg) as [invalid|] eqn:Hvalid;
  [|destruct (mongo.getReadPreference (mongo.setDefaults cfg)) as [readPref|prefErr] eqn:Hpref;
    [destruct (mongo.Connect_result driver _ _ _) as [client|connectErr] eqn:Hconnect;
     [destruct (mongo.Ping_result driver _ client _ readPref) as [pingErr|] eqn:Hping|]|]].

Ltac find_mongo_call := cbn [In app]; repeat first [left; reflexivity | right].

(** X21: mongo Connect, no connection on a bad configuration: with an
    empty [URI] or [DBName], [Connect] returns the wrapped validation error
    and makes no call at all.  With a read preference that is neither empty
    nor one of the five names, it has by then made the five calls of the
    options builder (the URI and the pool settings, defaults filled in) and
    nothing else: it returns the wrapped error without a call to
    [mongo.Connect].  Otherwise the three remaining builder calls follow and
    then [mongo.Connect], under the configured timeout (ten seconds if none
    is set), with pool sizes that are never zero. *)
Theorem mongo_Connect_checks_before_connecting (cfg : mongo.MongoConfig)
    (t0 : list mongo.Call) :
  let d := mongo.setDefaults cfg in
  let built :=
    [mongo.options_Client_ApplyURI (mongo.URI cfg);
     mongo.options_SetMaxPoolSize (mongo.MaxPoolSize d);
     mongo.options_SetMinPoolSize (mongo.MinPoolSize d);
     mongo.options_SetMaxConnIdleTime (mongo.MaxIdleTime d);
     mongo.options_SetMaxConnecting (mongo.MaxConnecting d)] in
  (forall err, mongo.validate cfg = Some err ->
     mongo.Connect driver cfg t0
     = ((None, Some (wrapError ("invalid configuration: " +:+ Error err) err)), []))
  /\ (mongo.validate cfg = None ->
      mongo.ReadPreference cfg <> "" ->
      ~ known_read_preference (mongo.ReadPreference cfg) ->
      exists e,
        mongo.Connect driver cfg t0 = ((None, Some e), built)
        /\ Error e = "failed to set read preference: invalid read preference: "
                     +:+ mongo.ReadPreference cfg)
  /\ (mongo.validate cfg = None ->
      mongo.ReadPreference cfg = "" \/ known_read_preference (mongo.ReadPreference cfg) ->
      exists rp opts rest,
        snd (mongo.Connect driver cfg t0)
        = built ++ [mongo.options_SetReadPreference rp;
                    mongo.options_SetRetryWrites (mongo.RetryWrites cfg);
                    mongo.options_SetRetryReads (mongo.RetryReads cfg);
                    mongo.mongo_Connect (mongo.timeout_ctx (mongo.timeout cfg)) opts]
          ++ rest
        /\ mongo.opt_URI opts = mongo.URI cfg
        /\ mongo.opt_ReadPreference opts = rp
        /\ mongo.opt_MaxPoolSize opts <> 0%N
        /\ mongo.opt_MinPoolSize opts <> 0%N
        /\ mongo.opt_MaxConnecting opts <> 0%N
        /\ (0 < mongo.opt_MaxConnIdleTime opts)%Z).
Proof.
  intros d built. subst d built.
  destruct (mongo_getReadPreference_names_parts cfg) as (Hunknown & Hempty & Hkept).
  destruct (mongo_setDefaults_establishes cfg)
    as (Huri & Htimeout & Hmax & Hmin & Hidle & Hconnecting).
  assert (Hwrites : mongo.RetryWrites (mongo.setDefaults cfg) = mongo.RetryWrites cfg).
  { rewrite mongo_setDefaults_fields. reflexivity. }
  assert (Hreads : mongo.RetryReads (mongo.setDefaults cfg) = mongo.RetryReads cfg).
  { rewrite mongo_setDefaults_fields. reflexivity. }
  split; [|split].
  - intros err Herr. unfold mongo.Connect. rewrite Herr, Errorf_wrap. reflexivity.
  - intros Hvalid Hset Hbad. unfold mongo.Connect. cbv zeta.
    rewrite Hvalid, (Hkept Hset), (Hunknown Hbad), Errorf_wrap, Huri.
    eexists. split; [reflexivity|]. reflexivity.
  - intros Hvalid Hgood.
    assert (Hok : exists rp, mongo.getReadPreference (mongo.setDefaults cfg) = inl rp).
    { destruct (String.eqb (mongo.ReadPreference cfg) "") eqn:E.
      - apply String.eqb_eq in E. rewrite (Hempty E). eauto.
      - apply String.eqb_neq in E. rewrite (Hkept E).
        destruct Hgood as [Hgood|Hgood]; [contradiction|].
        apply mongo_getReadPreference_known. exact Hgood. }
    destruct Hok as [rp Hrp].
    unfold mongo.Connect. cbv zeta. rewrite Hvalid, Hrp, Htimeout, Huri, Hwrites, Hreads.
    destruct (mongo.Connect_result driver _ _ _) as [client|connectErr];
      [destruct (mongo.Ping_result driver _ client _ rp) as [pingErr|]|];
      cbn [snd]; eexists rp, _, _;
      (split; [rewrite <- ?app_assoc; cbn [app]; reflexivity|]);
      cbn [mongo.opt_URI mongo.opt_MaxPoolSize mongo.opt_MinPoolSize mongo.opt_MaxConnecting
           mongo.opt_MaxConnIdleTime mongo.opt_ReadPreference]; auto 10.
Qed.

(** X22: mongo Connect, no leaked connection: [Connect] returns a client or an
    error, never both and never neither; when the ping fails its last call
    disconnects the client it had just connected, under the same context,
    and that is the only disconnect; when it succeeds, or fails before the
    ping, it never disconnects. *)
Theorem mongo_Connect_disconnects_when_ping_fails (cfg : mongo.MongoConfig)
    (t0 : list mongo.Call) :
  let '((c, err), calls) := mongo.Connect driver cfg t0 in
  let is_Disconnect call :=
    match call with mongo.Client_Disconnect _ _ => true | _ => false end in
  let is_Ping call := match call with mongo.Client_Ping _ _ _ => true | _ => false end in
  (c = None <-> err <> None)
  /\ length (List.filter is_Disconnect calls)
     = match err with
       | Some _ => if existsb is_Ping calls then 1 else 0
       | None => 0
       end
  /\ (err <> None -> existsb is_Ping calls = true ->
      exists client ctx rp,
        last calls = Some (mongo.Client_Disconnect client ctx)
        /\ In (mongo.Client_Ping client ctx rp) calls).
Proof.
  run_Connect cfg t0; cbn [fst snd app List.filter length existsb orb];
    (split; [split; [try discriminate; try congruence|try congruence; try reflexivity]|]);
    (split; [reflexivity|]);
    intros Hne Hping'; first [discriminate Hping' | congruence
                             | eexists _, _, _; split; [reflexivity|find_mongo_call]].
Qed.

(** X23: mongo Connect, the client it returns: it holds the connection and the
    configuration with its defaults filled in; its [Ping] asks the server
    under the read preference [Connect] pinged with, its [Database] is the
    configured database on that connection, and its [Disconnect] closes
    that connection; with a nil context these calls run under the configured
    timeout. *)
Theorem mongo_connected_client_is_usable (cfg : mongo.MongoConfig) (t0 t : list mongo.Call)
    (c : mongo.Client) (ctx : option nat) :
  fst (fst (mongo.Connect driver cfg t0)) = Some c ->
  exists client rp,
    c = mongo.mkClient (Some client) (mongo.setDefaults cfg)
    /\ In (mongo.Client_Ping client (mongo.timeout_ctx (mongo.timeout cfg)) rp)
          (snd (mongo.Connect driver cfg t0))
    /\ mongo.effective_ctx c None = mongo.timeout_ctx (mongo.timeout cfg)
    /\ mongo.Ping driver (Some c) ctx t
       = (mongo.Ping_result driver t client (mongo.effective_ctx c ctx) rp,
          [mongo.Client_Ping client (mongo.effective_ctx c ctx) rp])
    /\ mongo.Database (Some c) = Some (mongo.mkDatabase client (mongo.DBName cfg))
    /\ mongo.Disconnect driver (Some c) ctx t
       = (mongo.Disconnect_result driver t client (mongo.effective_ctx c ctx),
          [mongo.Client_Disconnect client (mongo.effective_ctx c ctx)]).
Proof.
  destruct (mongo_setDefaults_establishes cfg) as (_ & Htimeout & _).
  assert (Hname : mongo.DBName (mongo.setDefaults cfg) = mongo.DBName cfg).
  { rewrite mongo_setDefaults_fields. reflexivity. }
  run_Connect cfg t0; cbn [fst snd]; try discriminate.
  intros [= <-]. exists client, readPref. rewrite Htimeout.
  split; [reflexivity|]. split; [find_mongo_call|].
  unfold mongo.effective_ctx, mongo.Ping, mongo.Database, mongo.Disconnect.
  cbn [mongo.Client_Client mongo.config]. rewrite Hpref, Htimeout, Hname.
  repeat split; unfold mongo.effective_ctx; cbn [mongo.config]; rewrite Htimeout;
    reflexivity.
Qed.

(** X24: mongo Client, nil receiver and unconnected client: [Disconnect]
    returns nil, [Ping] and [WithTransaction] return
    "client not initialized", [IsHealthy] is false, [Database] and
    [Collection] are nil, and none of them makes a driver call. *)
Theorem mongo_uninitialised_client (c : option mongo.Client) (ctx : option nat)
    (name : string) (fn : SessionFunc) (t : list mongo.Call) :
  c = None \/ (exists cfg, c = Some (mongo.mkClient None cfg)) ->
  mongo.Disconnect driver c ctx t = (None, [])
  /\ mongo.Ping driver c ctx t = (Some (errorString "client not initialized"), [])
  /\ mongo.IsHealthy driver c ctx t = (false, [])
  /\ mongo.Database c = None
  /\ mongo.Collection c name = None
  /\ mongo.WithTransaction driver c ctx fn t
     = (Return (Some (errorString "client not initialized")), []).
Proof.
  intros [-> | [cfg ->]];
    unfold mongo.IsHealthy, mongo.Ping, mongo.WithTransaction, mongo.Collection,
      mongo.Database, mongo.Disconnect; cbn [mongo.Client_Client];
    rewrite ?Errorf_plain; repeat split.
Qed.

(** mongo Client, [Ping] with a read preference it does not know: where
    [Connect] would fail, [Ping] asks the server under primary instead. *)
Theorem mongo_Ping_falls_back_to_primary (client : nat) (cfg : mongo.MongoConfig)
    (ctx : option nat) (t : list mongo.Call) :
  ~ known_read_preference (mongo.ReadPreference cfg) ->
  let c := mongo.mkClient (Some client) cfg in
  mongo.Ping driver (Some c) ctx t
  = (mongo.Ping_result driver t client (mongo.effective_ctx c ctx) mongo.Primary,
     [mongo.Client_Ping client (mongo.effective_ctx c ctx) mongo.Primary]).
Proof.
  intros Hbad c. destruct (mongo_getReadPreference_names_parts cfg) as (Hunknown & _).
  unfold mongo.Ping. cbn [mongo.Client_Client mongo.config c]. cbv zeta.
  rewrite (Hunknown Hbad). reflexivity.
Qed.

(** X25: mongo WithTransaction, the session is always ended: once a session is
    started, the function's calls are start, the driver's transaction run
    and exactly one end of that session, whether the run ends in nil, in an
    error or in a panic; the error or the panic value is handed on as the
    driver gave it, without wrapping; when the session cannot be started the
    error wraps the driver's and nothing else is called. *)
Theorem mongo_WithTransaction_ends_the_session (client : nat) (cfg : mongo.MongoConfig)
    (ctx : option nat) (fn : SessionFunc) (t0 : list mongo.Call) :
  let c := Some (mongo.mkClient (Some client) cfg) in
  match mongo.StartSession_result driver t0 client with
  | inr err =>
      mongo.WithTransaction driver c ctx fn t0
      = (Return (Some (wrapError ("failed to start session: " +:+ Error err) err)),
         [mongo.StartSession client])
  | inl session =>
      mongo.WithTransaction driver c ctx fn t0
      = (mongo.WithTransaction_result driver (t0 ++ [mongo.StartSession client]) session ctx fn,
         [mongo.StartSession client; mongo.Session_WithTransaction session ctx;
          mongo.EndSession session ctx])
  end.
Proof.
  intros c. unfold mongo.WithTransaction. cbn [c mongo.Client_Client].
  destruct (mongo.StartSession_result driver t0 client) as [session|err].
  - destruct (mongo.WithTransaction_result driver _ session ctx fn); reflexivity.
  - rewrite Errorf_wrap. reflexivity.
Qed.

End MongoClientProperties.

(** * Further properties of the transaction executor *)

Section MoreExecutorProperties.
Context `{GoRuntime}.
Variable store : Store.

Ltac run_executor :=
  unfold WithNestedTransaction, WithTransaction, WithNestedTransactionContext,
    WithTransactionContext, bind, Begin, Commit, Rollback, SavePoint, RollbackTo,
    call, defer_recover, ret, panic.

Ltac count_calls :=
  repeat (rewrite ?count_cons, ?count_app, ?count_nil; cbn [is_begin is_commit is_rollback
    is_savepoint is_rollback_to]); lia.


(** X27: Transactions, one commit or one rollback: once the transaction has
    begun, whatever the unit of work does (return nil, return an error,
    panic), the executor's calls after it are exactly one call on the
    transaction handle, a commit if it returned nil and a rollback
    otherwise; a panic stays a panic and a return stays a return. *)
Theorem one_commit_or_rollback_per_transaction (ctx : Context_) (db : DB)
    (fn : TransactionFunc) (h w : Trace) (o : outcome (option error)) :
  let tx := Begin_result store h ctx db in
  DB_Error tx = None ->
  fn tx (h ++ [CBegin ctx db]) = (o, w) ->
  exists (o' : outcome (option error)) (final : Call),
    WithTransactionContext store ctx (Some db) fn h = (o', CBegin ctx db :: w ++ [final])
    /\ final = (match o with Return None => CCommit tx | _ => CRollback tx end)
    /\ count is_commit (CBegin ctx db :: w ++ [final])
       + count is_rollback (CBegin ctx db :: w ++ [final])
       = S (count is_commit w + count is_rollback w)
    /\ match o with
       | Panic r => o' = Panic r
       | Return None => exists result, o' = Return result
       | Return (Some _) => exists e, o' = Return (Some e)
       end.
Proof.
  intros tx Hbegin Hfn. run_executor. fold tx. rewrite Hbegin, Hfn.
  destruct o as [[err|]|r].
  - destruct (DB_Error (Rollback_result store _ tx));
      (eexists _, _; split; [reflexivity|]); (split; [reflexivity|]);
      (split; [count_calls|eauto]).
  - destruct (DB_Error (Commit_result store _ tx));
      (eexists _, _; split; [reflexivity|]); (split; [reflexivity|]);
      (split; [count_calls|eauto]).
  - eexists _, _; split; [reflexivity|]. split; [reflexivity|]. split; [count_calls|eauto].
Qed.

(** X28: Transactions, a nested scope inside a transaction: when a unit of
    work run by the plain entry point opens a nested scope on its
    transaction handle, a failure inside the scope is rolled back to the
    savepoint and then the whole transaction is rolled back, never
    committed; the caller gets one error that wraps the nested error, which
    wraps the original failure.  A panic inside the scope is followed by the
    same two rollbacks and comes out with its value.  Success commits once
    and leaves the savepoint alone. *)
Theorem nested_scope_inside_transaction (ctx ctx' : Context_) (db : DB)
    (fn : TransactionFunc) (h w : Trace) (o : outcome (option error)) :
  let tx := Begin_result store h ctx db in
  let name := savepoint_name ctx' in
  let run := WithTransactionContext store ctx (Some db)
               (fun tx' => WithNestedTransactionContext store ctx' (Some tx') fn) h in
  DB_Error tx = None ->
  in_transaction tx = true ->
  DB_Error (SavePoint_result store (h ++ [CBegin ctx db]) tx name) = None ->
  fn tx ((h ++ [CBegin ctx db]) ++ [CSavePoint tx name]) = (o, w) ->
  match o with
  | Return None =>
      exists result,
        run = (Return result, CBegin ctx db :: CSavePoint tx name :: w ++ [CCommit tx])
  | Return (Some err) =>
      exists e nested,
        run = (Return (Some e),
               CBegin ctx db :: CSavePoint tx name :: w
                 ++ [CRollbackTo tx name; CRollback tx])
        /\ Unwrap e = Some nested
        /\ Unwrap nested = Some err
        /\ Contains (Error e) (Error err)
  | Panic r =>
      run = (Panic r,
             CBegin ctx db :: CSavePoint tx name :: w ++ [CRollbackTo tx name; CRollback tx])
  end.
Proof.
  intros tx name run Hbegin Hin Hsp Hfn. subst run.
  run_executor. fold tx. rewrite Hbegin, Hin. fold name. rewrite Hsp, Hfn.
  destruct o as [[err|]|r].
  - destruct (DB_Error (RollbackTo_result store _ tx name)) as [rbErr|];
      [rewrite Errorf_wrap_and_show|rewrite Errorf_wrap];
      (destruct (DB_Error (Rollback_result store _ tx)) as [rollbackErr|];
       [rewrite Errorf_wrap_and_show|rewrite Errorf_wrap]);
      (eexists _, _; split;
       [cbn [app]; rewrite <- ?app_assoc; cbn [app]; reflexivity|]);
      (split; [reflexivity|]); (split; [reflexivity|]); cbn [Error].
    + exists ("transaction failed: " +:+ "nested transaction failed: "),
             (", savepoint rollback failed: " +:+ Error rbErr +:+
              ", rollback failed: " +:+ Error rollbackErr).
      rewrite ?append_assoc. reflexivity.
    + exists ("transaction failed: " +:+ "nested transaction failed: "),
             (", savepoint rollback failed: " +:+ Error rbErr).
      rewrite ?append_assoc. reflexivity.
    + exists ("transaction failed: " +:+ "nested transaction failed: "),
             (", rollback failed: " +:+ Error rollbackErr).
      rewrite ?append_assoc. reflexivity.
    + exists ("transaction failed: " +:+ "nested transaction failed: "), "".
      rewrite ?append_assoc, ?append_empty_r. reflexivity.
  - destruct (DB_Error (Commit_result store _ tx)); eexists;
      cbn [app]; rewrite ?app_nil_r; reflexivity.
  - cbn [app]. rewrite <- ?app_assoc. reflexivity.
Qed.

End MoreExecutorProperties.

(** * Properties of the base models *)

Section ModelProperties.

(** X29: Models, [BeforeCreate]: an identifier that is set is never replaced; a
    nil identifier is replaced by a new one and nothing else changes; the
    hook never fails; and once it has run with a non-nil new identifier,
    running it again changes nothing.  The same holds for [BaseModel] and
    for [ID]. *)
Theorem BeforeCreate_keeps_an_identifier (fresh fresh' : uuid.UUID) (b : BaseModel)
    (i : uuid.UUID) :
  (BaseModel_ID b <> uuid.Nil -> BaseModel_BeforeCreate fresh b = (b, None))
  /\ (BaseModel_ID b = uuid.Nil ->
      BaseModel_BeforeCreate fresh b
      = (mkBaseModel fresh (CreatedAt b) (UpdatedAt b) (DeletedAt b), None))
  /\ (fresh <> uuid.Nil ->
      BaseModel_BeforeCreate fresh' (fst (BaseModel_BeforeCreate fresh b))
      = BaseModel_BeforeCreate fresh b)
  /\ (i <> uuid.Nil -> ID_BeforeCreate fresh i = (i, None))
  /\ (i = uuid.Nil -> ID_BeforeCreate fresh i = (fresh, None))
  /\ (fresh <> uuid.Nil ->
      ID_BeforeCreate fresh' (fst (ID_BeforeCreate fresh i)) = ID_BeforeCreate fresh i).
Proof.
  unfold BaseModel_BeforeCreate, ID_BeforeCreate.
  destruct (BaseModel_ID b =? uuid.Nil)%Z eqn:Eb;
    [apply Z.eqb_eq in Eb|apply Z.eqb_neq in Eb];
  (destruct (i =? uuid.Nil)%Z eqn:Ei; [apply Z.eqb_eq in Ei|apply Z.eqb_neq in Ei]);
  repeat split; try congruence; intros Hfresh; cbn [fst BaseModel_ID];
    try (apply Z.eqb_neq in Hfresh; rewrite Hfresh; reflexivity);
    try (apply Z.eqb_neq in Eb; rewrite Eb; reflexivity);
    try (apply Z.eqb_neq in Ei; rewrite Ei; reflexivity).
Qed.

Variable UnmarshalText : uuid.UUID -> string -> uuid.UUID * option error.
Variable UUID_Scan : uuid.UUID -> scanned -> uuid.UUID * option error.
Variable UUID_String : uuid.UUID -> string.

(** X30: Models, [NullableUUID]: scanning NULL gives the nil identifier marked
    not valid, which [Value] stores as NULL again.  Scanning anything else
    marks the value valid before the text is parsed, so it stays marked
    valid also when the parse fails, and [Value] then stores the text of
    whatever identifier is left rather than NULL. *)
Theorem NullableUUID_Scan_marks_valid (nu : NullableUUID) (value : scanned) :
  NullableUUID_Scan UnmarshalText UUID_Scan nu scanned_nil
  = (mkNullableUUID uuid.Nil false, None)
  /\ NullableUUID_Value UUID_String (mkNullableUUID uuid.Nil false) = (None, None)
  /\ (value <> scanned_nil ->
      let after := fst (NullableUUID_Scan UnmarshalText UUID_Scan nu value) in
      Valid after = true
      /\ NullableUUID_Value UUID_String after
         = (Some (UUID_String (NullableUUID_UUID after)), None)).
Proof.
  split; [reflexivity|]. split; [reflexivity|].
  intros Hvalue. unfold NullableUUID_Scan, NullableUUID_Value.
  destruct value as [|v|v|T]; [congruence| | |]; cbn [NullableUUID_UUID Valid].
  - destruct (UnmarshalText (NullableUUID_UUID nu) v). split; reflexivity.
  - destruct (UnmarshalText (NullableUUID_UUID nu) v). split; reflexivity.
  - destruct (UUID_Scan (NullableUUID_UUID nu) (scanned_other T)). split; reflexivity.
Qed.

End ModelProperties.

(** * The further properties at concrete inputs *)

Section ExtraWitnesses.
Existing Instance scenario_runtime.

Lemma getters_on_missing_key_witness :
  Has (Some settings) "language" = false
  /\ Get (Some settings) "language" = (nil_any, false)
  /\ GetString (Some settings) "language" = ("", false).
Proof.
  assert (Hmissing : Has (Some settings) "language" = false) by (vm_compute; reflexivity).
  destruct (getters_on_missing_key (fun _ => 0%Z) (fun _ => None)
              (Some settings) "language" Hmissing) as (Hget & Hstring & _).
  split; [exact Hmissing|]. split; [exact Hget|exact Hstring].
Defined.

Lemma Scan_after_Value_witness :
  encode_empty_object ∅ = inl "{}"
  /\ "{}" <> ""
  /\ decode_empty_object "{}" = inl (Some ∅)
  /\ JSONB_Scan decode_empty_object (Some settings) (scanned_bytes "{}") = (Some ∅, None).
Proof.
  assert (Hencode : encode_empty_object ∅ = inl "{}") by reflexivity.
  assert (Hne : "{}" <> "") by discriminate.
  assert (Hdecode : decode_empty_object "{}" = inl (Some ∅)) by reflexivity.
  destruct (Scan_after_Value encode_empty_object decode_empty_object ∅ "{}" (Some settings)
              Hencode Hne Hdecode) as (_ & Hscan & _).
  split; [exact Hencode|]. split; [exact Hne|]. split; [exact Hdecode|exact Hscan].
Defined.

Lemma OpenGorm_pool_settings_are_positive_witness :
  In (SetMaxIdleConns 7 25%Z) (snd (OpenGorm healthy_server production_config [] []))
  /\ (0 < 25)%Z.
Proof.
  assert (Hin : In (SetMaxIdleConns 7 25%Z)
                   (snd (OpenGorm healthy_server production_config [] []))).
  { vm_compute. right. right. left. reflexivity. }
  split; [exact Hin|].
  exact (proj1 (OpenGorm_pool_settings_are_positive healthy_server production_config [] []
                  (SetMaxIdleConns 7 25%Z) Hin)).
Defined.

Lemma OpenGorm_manager_is_initialised_witness :
  fst (fst (OpenGorm healthy_server production_config [] []))
  = Some (mkDBManager (Some conn) (Some 7))
  /\ exists pool,
       DBManager_Close healthy_server (mkDBManager (Some conn) (Some 7)) []
       = (None, [sqlDB_Close pool]).
Proof.
  assert (Hopen : fst (fst (OpenGorm healthy_server production_config [] []))
                  = Some (mkDBManager (Some conn) (Some 7))) by (vm_compute; reflexivity).
  split; [exact Hopen|].
  destruct (OpenGorm_manager_is_initialised healthy_server production_config [] [] []
              (mkDBManager (Some conn) (Some 7)) Hopen) as (pool & _ & _ & Hclose).
  exists pool. exact Hclose.
Defined.

Lemma mongo_connected_client_is_usable_witness :
  fst (fst (mongo.Connect healthy_driver local_mongo []))
  = Some (mongo.mkClient (Some 3) (mongo.setDefaults local_mongo))
  /\ mongo.Database (Some (mongo.mkClient (Some 3) (mongo.setDefaults local_mongo)))
     = Some (mongo.mkDatabase 3 "orders").
Proof.
  assert (Hconnect : fst (fst (mongo.Connect healthy_driver local_mongo []))
                     = Some (mongo.mkClient (Some 3) (mongo.setDefaults local_mongo)))
    by (vm_compute; reflexivity).
  split; [exact Hconnect|].
  destruct (mongo_connected_client_is_usable unit healthy_driver local_mongo [] []
              (mongo.mkClient (Some 3) (mongo.setDefaults local_mongo)) None Hconnect)
    as (client & rp & Hc & _ & _ & _ & Hdb & _).
  injection Hc as <-. exact Hdb.
Defined.

Lemma mongo_uninitialised_client_witness :
  (@None mongo.Client = None \/ exists cfg, None = Some (mongo.mkClient None cfg))
  /\ mongo.Ping healthy_driver None None []
     = (Some (errorString "client not initialized"), []).
Proof.
  assert (Hnil : @None mongo.Client = None
                 \/ exists cfg, None = Some (mongo.mkClient None cfg)) by (left; reflexivity).
  split; [exact Hnil|].
  exact (proj1 (proj2 (mongo_uninitialised_client unit healthy_driver None None "users" tt []
                         Hnil))).
Defined.


Lemma one_commit_or_rollback_per_transaction_witness :
  let store := scenario_store false false true in
  let w := [CExec tx1 "INSERT INTO users"; CExec tx1 "INSERT INTO profiles"] in
  DB_Error (Begin_result store [] Background conn) = None
  /\ create_user_and_profile store tx1 [CBegin Background conn]
     = (Return (Some (errorString "second insert failed")), w)
  /\ exists o',
       WithTransactionContext store Background (Some conn) (create_user_and_profile store) []
       = (o', CBegin Background conn :: w ++ [CRollback tx1]).
Proof.
  intros store w. split; [reflexivity|]. split; [reflexivity|].
  destruct (one_commit_or_rollback_per_transaction store Background conn
              (create_user_and_profile store) [] w
              (Return (Some (errorString "second insert failed"))) eq_refl eq_refl)
    as (o' & final & Hrun & -> & _).
  exists o'. exact Hrun.
Defined.

Lemma nested_scope_inside_transaction_witness :
  let store := scenario_store false false true in
  let name := "sp_%!d(<nil>)" in
  let w := [CExec tx1 "INSERT INTO users"; CExec tx1 "INSERT INTO profiles"] in
  let err := errorString "second insert failed" in
  DB_Error (Begin_result store [] Background conn) = None
  /\ in_transaction tx1 = true
  /\ DB_Error (SavePoint_result store [CBegin Background conn] tx1 name) = None
  /\ create_user_and_profile store tx1 [CBegin Background conn; CSavePoint tx1 name]
     = (Return (Some err), w)
  /\ exists e nested,
       WithTransaction store (Some conn) (nested_create store) []
       = (Return (Some e),
          CBegin Background conn :: CSavePoint tx1 name :: w
            ++ [CRollbackTo tx1 name; CRollback tx1])
       /\ Unwrap e = Some nested /\ Unwrap nested = Some err.
Proof.
  intros store name w err.
  split; [reflexivity|]. split; [reflexivity|]. split; [reflexivity|].
  split; [reflexivity|].
  destruct (nested_scope_inside_transaction store Background Background conn
              (create_user_and_profile store) [] w (Return (Some err))
              eq_refl eq_refl eq_refl eq_refl) as (e & nested & Hrun & He & Hnested & _).
  exists e, nested. split; [exact Hrun|]. split; [exact He|exact Hnested].
Defined.

End ExtraWitnesses.

(** * The nested entry points on a handle without a transaction *)

Section OpenedHandleProperties.
Context `{GoRuntime}.
Variable store : Store.

(** On every handle that passes the test [in_transaction], and after any
    calls whatever, the first store call of the nested entry points is a
    savepoint on that handle. *)
Lemma nested_first_call_is_savepoint (ctx : Context_) (db : DB) (fn : TransactionFunc)
    (h : Trace) :
  in_transaction db = true ->
  exists (o : outcome (option error)) (rest : Trace),
    WithNestedTransactionContext store ctx (Some db) fn h
    = (o, CSavePoint db (savepoint_name ctx) :: rest).
Proof.
  intros Hin.
  destruct (fn db (h ++ [CSavePoint db (savepoint_name ctx)])) as [o w] eqn:Hfn.
  destruct (savepoint_branch store ctx db fn h w o Hin Hfn) as (o' & calls & Hrun & Hcase).
  rewrite Hrun.
  destruct (DB_Error (SavePoint_result store h db (savepoint_name ctx))).
  - destruct Hcase as [_ ->]. eauto.
  - destruct Hcase as (_ & _ & _ & _ & Hcase).
    destruct o as [[err|]|r]; [destruct Hcase as [-> _]|destruct Hcase as [_ ->]
                              |destruct Hcase as [_ ->]]; eauto.
Qed.

End OpenedHandleProperties.

Section OpenedHandleScenario.
Existing Instance scenario_runtime.

(** C6 (the code falls short of it): before any store call has been made,
    so with no transaction open, the handle [opened] (its [Statement] set,
    as on every handle [gorm.Open] returns) passes the test the code uses
    for "already in a transaction".  The nested entry point then creates a
    savepoint and runs the unit of work on [opened] itself, with no begin
    and no commit, where the plain entry point begins a transaction, runs
    the unit of work on the transaction handle and commits. *)
Theorem nested_on_opened_handle_begins_nothing :
  let store := scenario_store false false false in
  let fn := create_user_and_profile store in
  let nested := [CSavePoint opened "sp_%!d(<nil>)"; CExec opened "INSERT INTO users";
                 CExec opened "INSERT INTO profiles"] in
  let plain := [CBegin Background opened; CExec tx1 "INSERT INTO users";
                CExec tx1 "INSERT INTO profiles"; CCommit tx1] in
  in_transaction opened = true
  /\ WithNestedTransaction store (Some opened) fn [] = (Return None, nested)
  /\ WithTransaction store (Some opened) fn [] = (Return None, plain)
  /\ count is_begin nested = 0
  /\ count is_commit nested = 0
  /\ WithNestedTransaction store (Some opened) fn []
     <> WithTransaction store (Some opened) fn [].
Proof.
  intros store fn nested plain.
  assert (Hnested : WithNestedTransaction store (Some opened) fn [] = (Return None, nested))
    by (vm_compute; reflexivity).
  assert (Hplain : WithTransaction store (Some opened) fn [] = (Return None, plain))
    by (vm_compute; reflexivity).
  split; [reflexivity|]. split; [exact Hnested|]. split; [exact Hplain|].
  split; [reflexivity|]. split; [reflexivity|].
  rewrite Hnested, Hplain. subst nested plain. intros Heq. discriminate Heq.
Qed.

End OpenedHandleScenario.
